(** * The image compositor of the personalization prototype

    A shallow embedding of [lib/image-compositor.ts]: the static template
    registry [TEMPLATES], [downloadImage], [compositeOnTemplate] and
    [getAvailableTemplates], together with the defaulting expression of the
    [POST] handler of [app/api/personalize/route.ts].

    The compositor is glue code around three collaborators: the file system
    ([fs/promises]), the network ([fetch]) and the image library ([sharp]).
    The first two are a [World] of answers; the image library is an interface
    ([ImageLibrary]) whose documented contract is stated as [SharpContract].
    Asynchronous code is sequential here (every promise is awaited before the
    next statement runs), so an [Async] computation is the list of effects it
    performed together with its outcome: a returned value or a thrown one. *)

From stdpp Require Import gmap strings list pretty.
From Stdlib Require Import String Ascii ZArith Lia QArith Qround Qminmax.

Local Open Scope string_scope.
Local Open Scope Z_scope.

(** ** JavaScript values the compositor handles *)

(** What a [catch] clause can receive: an [Error] instance with its
    [message], or any other thrown value. *)
Inductive Thrown : Type :=
  | JsError (message : string)
  | NonError.

(** [error instanceof Error ? error.message : 'Unknown error occurred'] *)
Definition message_of (error : Thrown) : string :=
  match error with
  | JsError message => message
  | NonError => "Unknown error occurred"
  end.

(** [v || d] on an optional string: [undefined], [null] and [''] are falsy. *)
Definition js_or (v : option string) (d : string) : string :=
  match v with
  | None => d
  | Some EmptyString => d
  | Some s => s
  end.

(** [s.endsWith(suffix)] *)
Definition endsWith (s suffix : string) : bool :=
  let n := String.length s in
  let k := String.length suffix in
  (k <=? n)%nat && String.eqb (String.substring (n - k) k s) suffix.

(** [s.replace(pattern, replacement)] with a string pattern: only the first
    occurrence is replaced. *)
Fixpoint replace (pattern replacement s : string) : string :=
  if String.prefix pattern s
  then replacement +:+ String.substring (String.length pattern)
                         (String.length s - String.length pattern) s
  else match s with
       | EmptyString => EmptyString
       | String c rest => String c (replace pattern replacement rest)
       end.

(** [pattern] occurs somewhere in [s]. *)
Definition occurs (pattern s : string) : Prop :=
  exists before after, s = before +:+ pattern +:+ after.

(** ** Data model of the compositor *)

Record CompositeOptions : Type := {
  aiGeneratedImageUrl : string;
  templateName : option string
}.

Record FacePosition : Type := {
  x : Z;
  y : Z;
  width : Z;
  height : Z
}.

Record TemplateConfig : Type := {
  name : string;
  facePosition : FacePosition
}.

(** The module-level constant [TEMPLATES]: the own properties of the object
    literal. *)
Definition TEMPLATES : gmap string TemplateConfig :=
  {[ "template1" :=
       {| name := "template1";
          facePosition := {| x := 300; y := 150; width := 400; height := 400 |} |};
     "template2" :=
       {| name := "template2";
          facePosition := {| x := 250; y := 100; width := 500; height := 500 |} |} ]}.

(** [TEMPLATES] is an ordinary object literal, so a property read
    [TEMPLATES[key]] that finds no own property continues on
    [Object.prototype].  These are its string-keyed members. *)
Definition Object_prototype_keys : list string :=
  [ "constructor"; "__defineGetter__"; "__defineSetter__"; "hasOwnProperty";
    "__lookupGetter__"; "__lookupSetter__"; "isPrototypeOf";
    "propertyIsEnumerable"; "toString"; "valueOf"; "__proto__";
    "toLocaleString" ].

(** The value a property read on [TEMPLATES] yields. *)
Inductive Property : Type :=
  | OwnConfig (config : TemplateConfig)
  | Inherited (key : string)   (* a member of Object.prototype: a function,
                                  or the prototype object for __proto__ *)
  | Undefined.

(** [TEMPLATES[key]] *)
Definition get_property (object : gmap string TemplateConfig) (key : string)
  : Property :=
  match object !! key with
  | Some config => OwnConfig config
  | None =>
      if bool_decide (key ∈ Object_prototype_keys) then Inherited key
      else Undefined
  end.

(** [!v] is [negb (truthy v)]: objects and functions are truthy. *)
Definition truthy (v : Property) : bool :=
  match v with
  | Undefined => false
  | _ => true
  end.

(** ** The image library *)

Inductive Format : Type := JPEG | PNG | WEBP | GIF | TIFF | AVIF | SVG.

Inductive Fit : Type := Cover | Contain | Fill | Inside | Outside.

Inductive Position : Type := Center | Top | Right | Bottom | Left.

Inductive Blend : Type := Over | Multiply | Screen.

Record ResizeOptions : Type := {
  fit : Fit;
  position : Position
}.

(** A decoded image: its dimensions and its pixels, [pixel i px py] for
    [0 <= px < img_width i] and [0 <= py < img_height i]. *)
Record Image (Pixel : Type) : Type := {
  img_width : Z;
  img_height : Z;
  pixel : Z -> Z -> Pixel
}.
Arguments img_width {Pixel} _.
Arguments img_height {Pixel} _.
Arguments pixel {Pixel} _ _ _.

(** What the repository takes from [sharp] without defining it: byte
    buffers, the codec, the resampling kernel and the blend arithmetic. *)
Class ImageLibrary : Type := {
  Buffer : Type;
  Pixel : Type;
  decode_image : Buffer -> option (Format * Image Pixel);
  encode_image : Format -> Image Pixel -> Buffer;
  resample : ResizeOptions -> Z -> Z -> Image Pixel -> Image Pixel;
  blend_pixel : Blend -> Pixel -> Pixel -> Pixel
}.

(** Two images agree when they have the same dimensions and the same pixels
    inside them. *)
Definition same_image {Pixel : Type} (a b : Image Pixel) : Prop :=
  img_width a = img_width b /\ img_height a = img_height b /\
  forall px py, 0 <= px < img_width a -> 0 <= py < img_height a ->
    pixel a px py = pixel b px py.

(** ** Effects: the [Async] computations *)

Section Effects.
Context {L : ImageLibrary}.

(** One layer of a [composite] call: [{ input, top, left, blend }]. *)
Record Overlay : Type := {
  input : Buffer;
  top : Z;
  left : Z;
  blend : Blend
}.

(** A [sharp] pipeline under construction: the input buffer and the
    operations requested so far. *)
Record Sharp : Type := {
  sharp_input : Buffer;
  sharp_resize : option (Z * Z * ResizeOptions);
  sharp_composite : list Overlay;
  sharp_format : option Format
}.

Inductive ConsoleArg : Type :=
  | Str (s : string)
  | Err (e : Thrown).

(** The effects of the compositor, in the order they happen. *)
Inductive Event : Type :=
  | ConsoleLog (args : list ConsoleArg)
  | ConsoleWarn (args : list ConsoleArg)
  | ConsoleError (args : list ConsoleArg)
  | FsAccess (path : string)
  | FsReadFile (path : string)
  | FsReaddir (path : string)
  | Fetch (url : string)
  | ArrayBuffer (url : string)
  | SharpToBuffer (pipeline : Sharp).

Inductive Outcome (A : Type) : Type :=
  | Returned (value : A)
  | Threw (error : Thrown).

Definition Async (A : Type) : Type := (list Event * Outcome A)%type.

Definition ret {A : Type} (value : A) : Async A := ([], Returned A value).

Definition throw {A : Type} (error : Thrown) : Async A := ([], Threw A error).

Definition bind {A B : Type} (m : Async A) (k : A -> Async B) : Async B :=
  match m with
  | (before, Returned _ value) =>
      let '(after, result) := k value in ((before ++ after)%list, result)
  | (before, Threw _ error) => (before, Threw B error)
  end.

(** [try { body } catch (error) { handler }] *)
Definition try_catch {A : Type} (body : Async A) (handler : Thrown -> Async A)
  : Async A :=
  match body with
  | (before, Returned _ value) => (before, Returned A value)
  | (before, Threw _ error) =>
      let '(after, result) := handler error in ((before ++ after)%list, result)
  end.

Definition emit (e : Event) : Async unit := ([e], Returned unit tt).

(** An effect whose answer the environment decides. *)
Definition perform {A : Type} (e : Event) (answer : Thrown + A) : Async A :=
  ([e], match answer with
        | inl error => Threw A error
        | inr value => Returned A value
        end).

Definition trace {A : Type} (m : Async A) : list Event := fst m.
Definition outcome {A : Type} (m : Async A) : Outcome A := snd m.
End Effects.

Arguments Returned {A} _.
Arguments Threw {A} _.

Notation "'await' v <- m ; k" := (bind m (fun v => k))
  (at level 10, v name, m at level 100, k at level 200).
Notation "'run' m ; k" := (bind m (fun _ => k))
  (at level 10, m at level 100, k at level 200).

(** ** The [sharp] calls the compositor makes

    [sharp] is an external dependency.  What a pipeline does when it is run
    is taken from the library's API documentation: the input is decoded, a
    requested resize is applied, the composite layers are drawn in order
    (source-over at the given offset, on a canvas that keeps its size), and
    the result is encoded, in the requested format or else in the format of
    the input.  The codec, the resampling kernel and the blend arithmetic
    stay abstract. *)

Section SharpPipeline.
Context {L : ImageLibrary}.

(** [sharp(input)] *)
Definition sharp (input : Buffer) : Sharp :=
  {| sharp_input := input; sharp_resize := None;
     sharp_composite := []; sharp_format := None |}.

(** [.resize(width, height, options)] *)
Definition resize (w h : Z) (options : ResizeOptions) (s : Sharp) : Sharp :=
  {| sharp_input := sharp_input s; sharp_resize := Some (w, h, options);
     sharp_composite := sharp_composite s; sharp_format := sharp_format s |}.

(** [.composite(images)] *)
Definition composite (images : list Overlay) (s : Sharp) : Sharp :=
  {| sharp_input := sharp_input s; sharp_resize := sharp_resize s;
     sharp_composite := images; sharp_format := sharp_format s |}.

(** [.png()] *)
Definition png (s : Sharp) : Sharp :=
  {| sharp_input := sharp_input s; sharp_resize := sharp_resize s;
     sharp_composite := sharp_composite s; sharp_format := Some PNG |}.

(** Drawing [over_image] onto [base] with its top-left corner at
    [(at_left, at_top)]: the canvas keeps the dimensions of [base], and only
    the pixels under the overlay are blended. *)
Definition draw (mode : Blend) (over_image : Image Pixel) (at_left at_top : Z)
    (base : Image Pixel) : Image Pixel :=
  {| img_width := img_width base;
     img_height := img_height base;
     pixel := fun px py =>
       if (at_left <=? px) && (px <? at_left + img_width over_image) &&
          (at_top <=? py) && (py <? at_top + img_height over_image)
       then blend_pixel mode (pixel over_image (px - at_left) (py - at_top))
              (pixel base px py)
       else pixel base px py |}.

(** The layers of a [composite] call, drawn in order.  A layer that does not
    decode, or that is larger than the canvas, rejects the pipeline. *)
Fixpoint draw_all (images : list Overlay) (canvas : Image Pixel)
  : Thrown + Image Pixel :=
  match images with
  | [] => inr canvas
  | layer :: rest =>
      match decode_image (input layer) with
      | None => inl (JsError "Input buffer contains unsupported image format")
      | Some (_, over_image) =>
          if (img_width canvas <? img_width over_image) ||
             (img_height canvas <? img_height over_image)
          then inl (JsError
                 "Image to composite must have same dimensions or smaller")
          else draw_all rest
                 (draw (blend layer) over_image (left layer) (top layer) canvas)
      end
  end.

(** With no explicit output format the output format is the format of the
    input, except that SVG input becomes PNG output. *)
Definition output_format (requested : option Format) (input_format : Format)
  : Format :=
  match requested with
  | Some f => f
  | None => match input_format with SVG => PNG | f => f end
  end.

(** What [.toBuffer()] resolves or rejects with: decode the input, resize
    when requested, draw the composite layers, encode. *)
Definition toBuffer_result (s : Sharp) : Thrown + Buffer :=
  match decode_image (sharp_input s) with
  | None => inl (JsError "Input buffer contains unsupported image format")
  | Some (input_format, image) =>
      let resized :=
        match sharp_resize s with
        | Some (w, h, options) => resample options w h image
        | None => image
        end in
      match draw_all (sharp_composite s) resized with
      | inl error => inl error
      | inr canvas =>
          inr (encode_image (output_format (sharp_format s) input_format)
                 canvas)
      end
  end.

(** [await pipeline.toBuffer()] *)
Definition toBuffer (s : Sharp) : Async Buffer :=
  perform (SharpToBuffer s) (toBuffer_result s).

(** The documented contract of the library the proofs rely on. *)
Record SharpContract : Prop := {
  (** an image encoded in an output format decodes, in that format and with
      the dimensions it had (SVG is an input format only) *)
  decode_encode : forall f i, f <> SVG -> exists i',
    decode_image (encode_image f i) = Some (f, i') /\
    img_width i' = img_width i /\ img_height i' = img_height i;
  (** PNG is lossless *)
  decode_encode_png : forall i, exists i',
    decode_image (encode_image PNG i) = Some (PNG, i') /\ same_image i i';
  (** [fit: 'cover'] fills the requested box exactly *)
  resample_cover : forall options w h i,
    fit options = Cover -> 0 < w -> 0 < h ->
    img_width (resample options w h i) = w /\
    img_height (resample options w h i) = h
}.
End SharpPipeline.

(** ** The environment of a call *)

Section Compositor.
Context {L : ImageLibrary}.

(** The [Response] of a [fetch]: [ok], [statusText] and what
    [arrayBuffer()] resolves or rejects with. *)
Record Response : Type := {
  ok : bool;
  statusText : string;
  arrayBuffer : Thrown + Buffer
}.

(** The platform of a call: [process.cwd()], [path.join], and what the file
    system and the network answer.  [fs_access] is [None] when [fs.access]
    resolves.  Nothing in the compositor writes, so the answers do not change
    during a call. *)
Record World : Type := {
  cwd : string;
  path_join : list string -> string;
  fs_access : string -> option Thrown;
  fs_readFile : string -> Thrown + Buffer;
  fs_readdir : string -> Thrown + list string;
  fetch : string -> Thrown + Response
}.

Record DataUri : Type := {
  mime : string;
  body : Buffer
}.

(** The text of [base64Image].  The code only ever builds the empty string
    and [`data:image/png;base64,${buffer.toString('base64')}`]; base64 is
    one-to-one, so the text is kept as the media type and the buffer. *)
Inductive Payload : Type :=
  | Empty
  | Data (uri : DataUri).

Record CompositeResult : Type := {
  base64Image : Payload;
  error : option string
}.

Variable W : World.

Definition console_log (args : list ConsoleArg) : Async unit :=
  emit (ConsoleLog args).
Definition console_warn (args : list ConsoleArg) : Async unit :=
  emit (ConsoleWarn args).
Definition console_error (args : list ConsoleArg) : Async unit :=
  emit (ConsoleError args).

(** ** [downloadImage] *)
Definition downloadImage (url : string) : Async Buffer :=
  try_catch
    (run console_log [Str "Downloading AI-generated image from:"; Str url];
     await response <- perform (Fetch url) (fetch W url);
     if negb (ok response)
     then throw (JsError ("Failed to download image: " +:+ statusText response))
     else
       await bytes <- perform (ArrayBuffer url) (arrayBuffer response);
       ret bytes)
    (fun error =>
       run console_error [Str "Error downloading image:"; Err error];
       throw error).

(** [path.join(process.cwd(), 'public', 'templates', `${templateName}.png`)] *)
Definition template_path (templateName : string) : string :=
  path_join W [cwd W; "public"; "templates"; templateName +:+ ".png"].

Definition cover_center : ResizeOptions :=
  {| fit := Cover; position := Center |}.

(** [const { x, y, width, height } = templateConfig.facePosition]: an
    inherited member of [Object.prototype] has no [facePosition], and
    destructuring [undefined] throws a [TypeError]. *)
Definition destructure_facePosition (templateConfig : Property)
  : Async FacePosition :=
  match templateConfig with
  | OwnConfig config => ret (facePosition config)
  | _ => throw (JsError
           "Cannot destructure property 'x' of 'templateConfig.facePosition' as it is undefined.")
  end.

(** ** [compositeOnTemplate] *)
Definition compositeOnTemplate (options : CompositeOptions)
  : Async CompositeResult :=
  try_catch
    (let templateName := js_or (templateName options) "template1" in
     let templateConfig := get_property TEMPLATES templateName in
     if negb (truthy templateConfig)
     then throw (JsError ("Template " +:+ templateName +:+ " not found"))
     else
       let templatePath := template_path templateName in
       run console_log [Str "Loading template from:"; Str templatePath];
       await templateExists <-
         try_catch
           (run perform (FsAccess templatePath)
                  (match fs_access W templatePath with
                   | Some err => inl err
                   | None => inr tt
                   end);
            ret true)
           (fun err =>
              run console_warn
                    [Str ("Template " +:+ templateName +:+
                          ".png not found, using AI image directly")];
              ret false);
       await aiImageBuffer <- downloadImage (aiGeneratedImageUrl options);
       if negb templateExists
       then
         await resizedImage <-
           toBuffer (resize 1024 1024 cover_center (sharp aiImageBuffer));
         ret {| base64Image :=
                  Data {| mime := "image/png"; body := resizedImage |};
                error := None |}
       else
         await slot <- destructure_facePosition templateConfig;
         await resizedFace <-
           toBuffer (resize (width slot) (height slot) cover_center
                       (sharp aiImageBuffer));
         await templateBuffer <-
           perform (FsReadFile templatePath) (fs_readFile W templatePath);
         await compositedImage <-
           toBuffer (png (composite
                            [{| input := resizedFace; top := y slot;
                                left := x slot; blend := Over |}]
                            (sharp templateBuffer)));
         run console_log [Str "Image composition successful"];
         ret {| base64Image :=
                  Data {| mime := "image/png"; body := compositedImage |};
                error := None |})
    (fun error =>
       run console_error [Str "Image Compositor Error:"; Err error];
       ret {| base64Image := Empty; error := Some (message_of error) |}).

(** ** [getAvailableTemplates] *)
Definition getAvailableTemplates : Async (list string) :=
  let templatesDir := path_join W [cwd W; "public"; "templates"] in
  try_catch
    (await files <- perform (FsReaddir templatesDir) (fs_readdir W templatesDir);
     ret (map (fun file => replace ".png" "" file)
            (List.filter (fun file => endsWith file ".png") files)))
    (fun error =>
       run console_warn [Str "Templates directory not found:"; Err error];
       ret []).
End Compositor.

(** The [POST] handler passes [templateName || 'template1'] on. *)
Definition POST_composite_options (imageUrl : string) (template : option string)
  : CompositeOptions :=
  {| aiGeneratedImageUrl := imageUrl;
     templateName := Some (js_or template "template1") |}.

(** ** A reference image library

    A small instance of [ImageLibrary] on which the compositor can be run:
    buffers are kept as what they decode to, pixels are 8-bit RGBA, resizing
    samples the nearest source pixel and blending is integer alpha-over. *)

Record RGBA : Type := {
  red : Z;
  green : Z;
  blue : Z;
  alpha : Z
}.

Inductive Bytes : Type :=
  | ImageFile (format : Format) (image : Image RGBA)
  | OtherFile (content : string).

Definition reference_decode (b : Bytes) : option (Format * Image RGBA) :=
  match b with
  | ImageFile format image => Some (format, image)
  | OtherFile _ => None
  end.

(** Nearest-neighbour sampling.  For [Cover] the source is scaled uniformly
    by the larger of the two ratios and the overflow is cut evenly on both
    sides; every other fit stretches. *)
Definition reference_resample (options : ResizeOptions) (w h : Z)
    (i : Image RGBA) : Image RGBA :=
  let sw := img_width i in
  let sh := img_height i in
  {| img_width := w;
     img_height := h;
     pixel := fun px py =>
       match fit options with
       | Cover =>
           if h * sw <=? w * sh
           then pixel i (px * sw / w) ((py + (sh * w / sw - h) / 2) * sw / w)
           else pixel i ((px + (sw * h / sh - w) / 2) * sh / h) (py * sh / h)
       | _ => pixel i (px * sw / w) (py * sh / h)
       end |}.

Definition mix (a over_value under_value : Z) : Z :=
  (over_value * a + under_value * (255 - a)) / 255.

Definition reference_blend (mode : Blend) (over_pixel under : RGBA) : RGBA :=
  match mode with
  | Over =>
      let a := alpha over_pixel in
      {| red := mix a (red over_pixel) (red under);
         green := mix a (green over_pixel) (green under);
         blue := mix a (blue over_pixel) (blue under);
         alpha := mix a 255 (alpha under) |}
  | Multiply =>
      {| red := red over_pixel * red under / 255;
         green := green over_pixel * green under / 255;
         blue := blue over_pixel * blue under / 255;
         alpha := alpha under |}
  | Screen =>
      {| red := 255 - (255 - red over_pixel) * (255 - red under) / 255;
         green := 255 - (255 - green over_pixel) * (255 - green under) / 255;
         blue := 255 - (255 - blue over_pixel) * (255 - blue under) / 255;
         alpha := alpha under |}
  end.

#[export] Instance reference_library : ImageLibrary := {|
  Buffer := Bytes;
  Pixel := RGBA;
  decode_image := reference_decode;
  encode_image := ImageFile;
  resample := reference_resample;
  blend_pixel := reference_blend
|}.

(** A [w] by [h] image of one colour. *)
Definition solid (w h : Z) (colour : RGBA) : Image RGBA :=
  {| img_width := w; img_height := h; pixel := fun _ _ => colour |}.

Definition white : RGBA := {| red := 255; green := 255; blue := 255; alpha := 255 |}.
Definition black : RGBA := {| red := 0; green := 0; blue := 0; alpha := 255 |}.

(** A [200 OK] response carrying [bytes]. *)
Definition ok_response (bytes : Bytes) : Response :=
  {| ok := true; statusText := "OK"; arrayBuffer := inr bytes |}.

Definition ENOENT (path : string) : Thrown :=
  JsError ("ENOENT: no such file or directory, access '" +:+ path +:+ "'").

(** A deployment without any template file, as the repository ships: every
    [fs.access] fails, the templates directory is empty, and the only URL
    that answers serves [served]. *)
Definition bare_world (served : Bytes) : World :=
  {| cwd := "/app";
     path_join := String.concat "/";
     fs_access := fun path => Some (ENOENT path);
     fs_readFile := fun path => inl (ENOENT path);
     fs_readdir := fun _ => inr [];
     fetch := fun url =>
       if String.eqb url "https://replicate.delivery/out-0"
       then inr (ok_response served)
       else inl (JsError "fetch failed") |}.

(** A deployment whose templates directory holds [files]: [name ↦ content]. *)
Definition world_with_templates (files : list (string * (Thrown + Bytes)))
    (served : Thrown + Response) : World :=
  let find path :=
    List.find (fun entry => String.eqb ("/app/public/templates/" +:+ fst entry) path)
      files in
  {| cwd := "/app";
     path_join := String.concat "/";
     fs_access := fun path =>
       match find path with Some _ => None | None => Some (ENOENT path) end;
     fs_readFile := fun path =>
       match find path with Some entry => snd entry | None => inl (ENOENT path) end;
     fs_readdir := fun path =>
       if String.eqb path "/app/public/templates" then inr (List.map fst files)
       else inl (ENOENT path);
     fetch := fun url =>
       if String.eqb url "https://replicate.delivery/out-0" then served
       else inl (JsError "fetch failed") |}.

(** ** Vocabulary of the properties *)

Section Vocabulary.
Context {L : ImageLibrary}.

(** The ways the download of [url] fails, each with the value
    [downloadImage] then throws: [fetch] rejects, the response is not
    [ok], or reading the body rejects. *)
Inductive fetch_failure (W : World) (url : string) : Thrown -> Prop :=
  | network_error (e : Thrown) :
      fetch W url = inl e -> fetch_failure W url e
  | bad_status (response : Response) :
      fetch W url = inr response -> ok response = false ->
      fetch_failure W url
        (JsError ("Failed to download image: " +:+ statusText response))
  | body_error (response : Response) (e : Thrown) :
      fetch W url = inr response -> ok response = true ->
      arrayBuffer response = inl e -> fetch_failure W url e.

(** The download of [url] succeeds with [bytes]. *)
Definition fetch_success (W : World) (url : string) (bytes : Buffer) : Prop :=
  exists response,
    fetch W url = inr response /\ ok response = true /\
    arrayBuffer response = inr bytes.

(** Every rejection of a file read and of the network that is an [Error]
    carries a message, as Node's do.  (A rejection of [fs.access] never
    reaches a result, so nothing is asked of it.) *)
Record errors_described (W : World) : Prop := {
  readFile_described : forall path e,
    fs_readFile W path = inl e -> message_of e <> "";
  fetch_described : forall url e,
    fetch W url = inl e -> message_of e <> "";
  body_described : forall url response e,
    fetch W url = inr response -> arrayBuffer response = inl e ->
    message_of e <> ""
}.

Definition is_fetch (e : Event) : bool :=
  match e with Fetch _ => true | _ => false end.

(** Image processing and template loading: the work of the fallback and of
    the composite path. *)
Definition is_processing (e : Event) : bool :=
  match e with SharpToBuffer _ | FsReadFile _ => true | _ => false end.

Definition success (bytes : Buffer) : CompositeResult :=
  {| base64Image := Data {| mime := "image/png"; body := bytes |};
     error := None |}.

Definition failure (message : string) : CompositeResult :=
  {| base64Image := Empty; error := Some message |}.

(** The one layer the composite path draws:
    [{ input: resizedFace, top: y, left: x, blend: 'over' }]. *)
Definition face_layer (slot : FacePosition) (resizedFace : Buffer) : Overlay :=
  {| input := resizedFace; top := y slot; left := x slot; blend := Over |}.

(** [px, py] lies in the face slot of a template. *)
Definition in_slot (slot : FacePosition) (px py : Z) : Prop :=
  x slot <= px < x slot + width slot /\ y slot <= py < y slot + height slot.
End Vocabulary.

Arguments get_property : simpl never.
Arguments template_path : simpl never.
Arguments toBuffer_result : simpl never.
Arguments downloadImage : simpl never.

(** ** Concrete deployments and requests *)

Definition served_url : string := "https://replicate.delivery/out-0".

Definition request (template : option string) : CompositeOptions :=
  {| aiGeneratedImageUrl := served_url; templateName := template |}.

Definition EACCES : Thrown :=
  JsError "EACCES: permission denied, open '/app/public/templates/template1.png'".

(** [template1.png] is a white 1024 by 1024 PNG; the generated image is a
    black 2000 by 1000 JPEG. *)
Definition studio_world : World :=
  world_with_templates
    [("template1.png", inr (ImageFile PNG (solid 1024 1024 white)))]
    (inr (ok_response (ImageFile JPEG (solid 2000 1000 black)))).

(** [template1.png] is a white 1024 by 1024 PNG and so is the generated
    image. *)
Definition blank_world : World :=
  world_with_templates
    [("template1.png", inr (ImageFile PNG (solid 1024 1024 white)))]
    (inr (ok_response (ImageFile PNG (solid 1024 1024 white)))).

(** [template1.png] exists but cannot be read. *)
Definition unreadable_world : World :=
  world_with_templates
    [("template1.png", inl EACCES)]
    (inr (ok_response (ImageFile PNG (solid 1024 1024 black)))).

(** A [404 Not Found] response. *)
Definition not_found : Response :=
  {| ok := false; statusText := "Not Found"; arrayBuffer := inr (OtherFile "") |}.

(** The generated image is gone: the download answers [404 Not Found]. *)
Definition gone_world : World :=
  world_with_templates
    [("template1.png", inr (ImageFile PNG (solid 1024 1024 white)))]
    (inr not_found).

(** The templates directory holds a file with [.png] twice in its name. *)
Definition backup_world : World :=
  world_with_templates
    [("cover.png.old.png", inr (ImageFile PNG (solid 1024 1024 white)))]
    (inl (JsError "fetch failed")).

(** The generated image as a black 2000 by 1000 JPEG. *)
Definition jpeg_source : Bytes := ImageFile JPEG (solid 2000 1000 black).

(** Both template files are present. *)
Definition full_world : World :=
  world_with_templates
    [("template1.png", inr (ImageFile PNG (solid 1024 1024 white)));
     ("template2.png", inr (ImageFile PNG (solid 1024 1024 black)))]
    (inr (ok_response jpeg_source)).

(** * The callers of the compositor

    [lib/ai-service.ts] (the model call), [app/api/personalize/route.ts] (the
    request handler that validates the upload, calls the model and then the
    compositor) and the event handlers of [app/page.tsx] (the page that posts
    to the route). *)

(** ** The model host *)

Module Replicate.
Section Def.
Context {L : ImageLibrary}.

(** A decimal literal of the source: [digits] with [places] digits after the
    point ([4.5] is [45] with one place). *)
Record Decimal : Type := {
  digits : Z;
  places : nat
}.

(** The [input] object of the model call. *)
Record Input : Type := {
  image : DataUri;
  steps : Z;
  width : Z;
  height : Z;
  prompt : string;
  upscale : bool;
  upscale_steps : Z;
  negative_prompt : string;
  prompt_strength : Decimal;
  ip_adapter_noise : Decimal;
  ip_adapter_weight : Decimal;
  instant_id_strength : Decimal
}.

(** What [replicate.run] resolves with, as the service reads it: nothing
    ([undefined] or [null]), one URL, or a list of URLs. *)
Inductive Output : Type :=
  | Nullish
  | Text (url : string)
  | Items (urls : list string).

(** [!output || (Array.isArray(output) && output.length === 0)]: the empty
    string is falsy, an array is truthy even when empty. *)
Definition no_output (output : Output) : bool :=
  match output with
  | Nullish => true
  | Text EmptyString => true
  | Text _ => false
  | Items [] => true
  | Items _ => false
  end.

(** [Array.isArray(output) ? output[0] : output], [undefined] read as no
    URL. *)
Definition first_output (output : Output) : option string :=
  match output with
  | Nullish => None
  | Text url => Some url
  | Items [] => None
  | Items (url :: _) => Some url
  end.
End Def.
End Replicate.

(** ** Effects of the server *)

(** An uploaded [File]: its [name], [type], [size] and content. *)
Record File {L : ImageLibrary} : Type := {
  file_name : string;
  file_type : string;
  file_size : Z;
  file_bytes : Buffer
}.

Section ServerEffects.
Context {L : ImageLibrary}.

Inductive LogArg : Type :=
  | Txt (s : string)
  | Opt (s : option string)
  | Caught (e : Thrown).

(** The effects of the server, in the order they happen; the effects of the
    compositor are embedded. *)
Inductive ServerEvent : Type :=
  | ServerLog (args : list LogArg)
  | ServerError (args : list LogArg)
  | FormDataRead
  | FileArrayBuffer
  | ReplicateRun (auth model : string) (input : Replicate.Input)
  | ModelsGet (auth owner model : string)
  | Compositing (e : Event).

Definition Handler (A : Type) : Type := (list ServerEvent * Outcome A)%type.

Definition done {A : Type} (value : A) : Handler A := ([], Returned value).

Definition raise {A : Type} (error : Thrown) : Handler A := ([], Threw error).

Definition andThen {A B : Type} (m : Handler A) (k : A -> Handler B) : Handler B :=
  match m with
  | (before, Returned value) =>
      let '(after, result) := k value in ((before ++ after)%list, result)
  | (before, Threw error) => (before, Threw error)
  end.

(** [try { body } catch (error) { handler }] *)
Definition guarded {A : Type} (body : Handler A) (handler : Thrown -> Handler A)
  : Handler A :=
  match body with
  | (before, Returned value) => (before, Returned value)
  | (before, Threw error) =>
      let '(after, result) := handler error in ((before ++ after)%list, result)
  end.

Definition effect {A : Type} (e : ServerEvent) (answer : Thrown + A) : Handler A :=
  ([e], match answer with
        | inl error => Threw error
        | inr value => Returned value
        end).

Definition server_log (args : list LogArg) : Handler unit :=
  ([ServerLog args], Returned tt).

Definition server_error (args : list LogArg) : Handler unit :=
  ([ServerError args], Returned tt).

Definition effects {A : Type} (m : Handler A) : list ServerEvent := fst m.
Definition answer {A : Type} (m : Handler A) : Outcome A := snd m.

(** Running the compositor inside a handler. *)
Definition compositing {A : Type} (m : Async A) : Handler A :=
  (List.map Compositing (trace m), outcome m).

(** The server a request meets: the platform of the compositor, the
    environment variables the code reads, and what the model host
    answers. *)
Record Server : Type := {
  world : World;
  REPLICATE_API_TOKEN : option string;
  NODE_ENV : option string;
  replicate_run : string -> string -> Replicate.Input -> Thrown + Replicate.Output;
  replicate_models_get : string -> string -> string -> option Thrown
}.
End ServerEffects.

Notation "'step' v <- m ; k" := (andThen m (fun v => k))
  (at level 10, v name, m at level 100, k at level 200).
Notation "'stmt' m ; k" := (andThen m (fun _ => k))
  (at level 10, m at level 100, k at level 200).

(** ** [lib/ai-service.ts] *)

Module AiService.
Section Def.
Context {L : ImageLibrary}.

Record PersonalizationOptions : Type := {
  imageBuffer : Buffer;
  prompt : option string
}.

Record PersonalizationResult : Type := {
  imageUrl : string;
  error : option string
}.

(** The [AIService] object: its private [replicate] client, which is the
    token it was built with. *)
Record AIService : Type := {
  auth : string
}.

(** [constructor(apiToken)] *)
Definition new (apiToken : string) : Handler AIService :=
  match apiToken with
  | EmptyString => raise (JsError "REPLICATE_API_TOKEN is required")
  | _ => done {| auth := apiToken |}
  end.

Definition model : string :=
  "fofr/face-to-sticker:764d4827ea159608a07cdde8ddf1c6000019627515eb02b6b449695fd547e5ef".

(** The [input] of the call for an upload and a prompt. *)
Definition model_input (options : PersonalizationOptions) : Replicate.Input :=
  {| Replicate.image := {| mime := "image/jpeg"; body := imageBuffer options |};
     Replicate.steps := 20;
     Replicate.width := 1024;
     Replicate.height := 1024;
     Replicate.prompt :=
       js_or (prompt options)
         "cute cartoon style, colorful, friendly, childrens book illustration";
     Replicate.upscale := false;
     Replicate.upscale_steps := 10;
     Replicate.negative_prompt := "ugly, blurry, poor quality";
     Replicate.prompt_strength := {| Replicate.digits := 45; Replicate.places := 1 |};
     Replicate.ip_adapter_noise := {| Replicate.digits := 5; Replicate.places := 1 |};
     Replicate.ip_adapter_weight := {| Replicate.digits := 2; Replicate.places := 1 |};
     Replicate.instant_id_strength := {| Replicate.digits := 7; Replicate.places := 1 |} |}.

(** [personalizeImage] *)
Definition personalizeImage (S : Server) (this : AIService)
    (options : PersonalizationOptions) : Handler PersonalizationResult :=
  guarded
    (stmt server_log [Txt "Calling Replicate API for image personalization..."];
     step output <-
       effect (ReplicateRun (auth this) model (model_input options))
         (replicate_run S (auth this) model (model_input options));
     if Replicate.no_output output
     then raise (JsError "No output received from AI model")
     else
       let imageUrl := Replicate.first_output output in
       stmt server_log [Txt "AI personalization successful:"; Opt imageUrl];
       done {| imageUrl := default "" imageUrl; error := None |})
    (fun error =>
       stmt server_error [Txt "AI Service Error:"; Caught error];
       done {| imageUrl := ""; error := Some (message_of error) |}).

(** [testConnection] *)
Definition testConnection (S : Server) (this : AIService) : Handler bool :=
  guarded
    (stmt effect (ModelsGet (auth this) "fofr" "face-to-sticker")
            (match replicate_models_get S (auth this) "fofr" "face-to-sticker" with
             | Some error => inl error
             | None => inr tt
             end);
     done true)
    (fun error =>
       stmt server_error [Txt "Failed to connect to Replicate:"; Caught error];
       done false).

(** [createAIService] *)
Definition createAIService (S : Server) : Handler AIService :=
  match REPLICATE_API_TOKEN S with
  | None | Some EmptyString =>
      raise (JsError
               ("REPLICATE_API_TOKEN environment variable is not set. " +:+
                "Please add it to your .env.local file. " +:+
                "Get your token from: https://replicate.com/account/api-tokens"))
  | Some apiToken => new apiToken
  end.
End Def.
End AiService.

(** ** [app/api/personalize/route.ts] *)

Module Route.
Section Def.
Context {L : ImageLibrary}.

Definition MAX_FILE_SIZE : Z := 10 * 1024 * 1024.

Definition ALLOWED_TYPES : list string :=
  ["image/jpeg"; "image/png"; "image/jpg"; "image/webp"].

(** What [formData.get('image')] yields: nothing, a text value or a file. *)
Inductive ImageField : Type :=
  | NoField
  | TextField (value : string)
  | FileField (file : File).

(** The form of a request.  The [template] field is taken to be absent or a
    text value. *)
Record Form : Type := {
  form_image : ImageField;
  form_template : option string
}.

(** [!file] is [negb (present file)]: [null] and the empty string are
    falsy. *)
Definition present (file : ImageField) : bool :=
  match file with
  | NoField => false
  | TextField EmptyString => false
  | _ => true
  end.

(** [file.type], [file.size] and [file.name]: a string has none of them. *)
Definition type_of (file : ImageField) : option string :=
  match file with FileField f => Some (file_type f) | _ => None end.

Definition size_of (file : ImageField) : option Z :=
  match file with FileField f => Some (file_size f) | _ => None end.

Definition name_of (file : ImageField) : option string :=
  match file with FileField f => Some (file_name f) | _ => None end.

(** [ALLOWED_TYPES.includes(type)] *)
Definition includes (types : list string) (type : option string) : bool :=
  match type with
  | Some t => existsb (String.eqb t) types
  | None => false
  end.

(** [size > MAX_FILE_SIZE]: a comparison with [undefined] is false. *)
Definition exceeds (size : option Z) (limit : Z) : bool :=
  match size with
  | Some n => limit <? n
  | None => false
  end.

(** A value inside a template literal. *)
Definition show (value : option string) : string := default "undefined" value.

Definition show_number (value : option Z) : string :=
  match value with
  | Some n => pretty n
  | None => "undefined"
  end.

(** The JSON bodies the route sends.  [details] stands for the stack (or
    the string conversion) of the error it is taken from. *)
Inductive Body : Type :=
  | ErrorJson (error : string) (details : option Thrown)
  | SuccessJson (image : Payload) (message : string).

Record Response : Type := {
  status : Z;
  body : Body
}.

(** [NextResponse.json(body, { status })] *)
Definition json (body : Body) (status : Z) : Handler Response :=
  done {| status := status; body := body |}.

(** [await file.arrayBuffer()] followed by [Buffer.from]. *)
Definition arrayBuffer_of (file : ImageField) : Handler Buffer :=
  effect FileArrayBuffer
    (match file with
     | FileField f => inr (file_bytes f)
     | _ => inl (JsError "file.arrayBuffer is not a function")
     end).

Definition truthy_text (s : option string) : bool :=
  match s with
  | None | Some EmptyString => false
  | Some _ => true
  end.

Definition truthy_payload (p : Payload) : bool :=
  match p with
  | Empty => false
  | Data _ => true
  end.

(** [process.env.NODE_ENV === 'development'] *)
Definition is_development (env : option string) : bool :=
  match env with
  | Some value => String.eqb value "development"
  | None => false
  end.

Definition route_prompt : string :=
  "cute cartoon style, colorful, friendly, childrens book illustration, happy child".

(** [POST] *)
Definition POST (S : Server) (request : Thrown + Form) : Handler Response :=
  guarded
    (stmt server_log [Txt "Received personalization request"];
     step formData <- effect FormDataRead request;
     let file := form_image formData in
     let templateName := form_template formData in
     if negb (present file)
     then json (ErrorJson "No image file provided" None) 400
     else if negb (includes ALLOWED_TYPES (type_of file))
     then json (ErrorJson
                  ("Invalid file type. Allowed types: " +:+
                   String.concat ", " ALLOWED_TYPES) None) 400
     else if exceeds (size_of file) MAX_FILE_SIZE
     then json (ErrorJson
                  ("File too large. Maximum size: " +:+
                   pretty (MAX_FILE_SIZE / 1024 / 1024) +:+ "MB") None) 400
     else
       stmt server_log
              [Txt ("Processing file: " +:+ show (name_of file) +:+ " (" +:+
                    show_number (size_of file) +:+ " bytes, " +:+
                    show (type_of file) +:+ ")")];
       step imageBuffer <- arrayBuffer_of file;
       step aiService <- AiService.createAIService S;
       stmt server_log
              [Txt "Step 1: Generating personalized illustration with AI..."];
       step aiResult <-
         AiService.personalizeImage S aiService
           {| AiService.imageBuffer := imageBuffer;
              AiService.prompt := Some route_prompt |};
       if truthy_text (AiService.error aiResult) ||
          negb (truthy_text (Some (AiService.imageUrl aiResult)))
       then
         stmt server_error
                [Txt "AI generation failed:"; Opt (AiService.error aiResult)];
         json (ErrorJson
                 (js_or (AiService.error aiResult)
                    "Failed to generate personalized image") None) 500
       else
         stmt server_log [Txt "Step 2: Compositing onto template..."];
         step compositeResult <-
           compositing
             (compositeOnTemplate (world S)
                (POST_composite_options (AiService.imageUrl aiResult)
                   templateName));
         if truthy_text (error compositeResult) ||
            negb (truthy_payload (base64Image compositeResult))
         then
           stmt server_error
                  [Txt "Composition failed:"; Opt (error compositeResult)];
           json (ErrorJson
                   (js_or (error compositeResult) "Failed to composite image")
                   None) 500
         else
           stmt server_log [Txt "Personalization completed successfully"];
           json (SuccessJson (base64Image compositeResult)
                   "Image personalized successfully") 200)
    (fun error =>
       stmt server_error [Txt "Personalization API Error:"; Caught error];
       json (ErrorJson
               (match error with
                | JsError message => message
                | NonError => "Internal server error"
                end)
               (if is_development (NODE_ENV S) then Some error else None)) 500).

(** The body of [GET]. *)
Record Requirements : Type := {
  field : string;
  allowedTypes : list string;
  maxSize : string
}.

Record Info : Type := {
  message : string;
  endpoints_POST : string;
  requirements : Requirements
}.

(** [GET] *)
Definition GET : Info :=
  {| message := "Pickabook Personalization API";
     endpoints_POST := "/api/personalize - Upload an image for personalization";
     requirements :=
       {| field := "image";
          allowedTypes := ALLOWED_TYPES;
          maxSize := pretty (MAX_FILE_SIZE / 1024 / 1024) +:+ "MB" |} |}.
End Def.
End Route.

(** ** The event handlers of [app/page.tsx]

    Each handler is first given as one run, with nothing else happening
    while it awaits; the page with requests in flight follows. *)

Module Page.
Section Def.
Context {L : ImageLibrary}.

Record UploadState : Type := {
  file : option File;
  previewUrl : option string;
  isProcessing : bool;
  error : option string;
  resultImage : option Payload;
  success : bool
}.

(** The state the page starts in. *)
Definition initial : UploadState :=
  {| file := None; previewUrl := None; isProcessing := false;
     error := None; resultImage := None; success := false |}.

(** The JSON of a reply, as the page reads it: [data.error] and
    [data.image]. *)
Record Data : Type := {
  data_error : option string;
  data_image : option Payload
}.

(** The reply to the [POST]: [response.ok] and what [response.json()]
    resolves or rejects with. *)
Record Reply : Type := {
  reply_ok : bool;
  reply_json : Thrown + Data
}.

(** What the browser provides: object URLs, the clock, the file input of
    the page, and the answer to the request. *)
Record Browser : Type := {
  createObjectURL : File -> string;
  now : Z;
  file_input_mounted : bool;
  personalize : File -> string -> Thrown + Reply
}.

Inductive PageEvent : Type :=
  | SetState (next : UploadState)
  | CreateObjectURL (f : File)
  | RevokeObjectURL (url : string)
  | ClearFileInput
  | PageLog (args : list LogArg)
  | PageError (args : list LogArg)
  | PostPersonalize (image : File) (template : string)
  | ReadJson
  | Download (href : Payload) (filename : string).

(** A handler run: its effects and the state it leaves. *)
Definition Run : Type := (list PageEvent * UploadState)%type.

Definition MAX_SIZE : Z := 10 * 1024 * 1024.

(** [handleFileSelect], for the first file of the input (if any). *)
Definition handleFileSelect (B : Browser) (selected : option File)
    (state : UploadState) : Run :=
  match selected with
  | None => ([], state)
  | Some f =>
      if negb (String.prefix "image/" (file_type f))
      then
        let next :=
          {| file := file state; previewUrl := previewUrl state;
             isProcessing := isProcessing state;
             error := Some "Please select a valid image file (JPG, PNG, or WebP)";
             resultImage := resultImage state; success := success state |} in
        ([SetState next], next)
      else if MAX_SIZE <? file_size f
      then
        let next :=
          {| file := file state; previewUrl := previewUrl state;
             isProcessing := isProcessing state;
             error := Some "File is too large. Maximum size is 10MB";
             resultImage := resultImage state; success := success state |} in
        ([SetState next], next)
      else
        let next :=
          {| file := Some f; previewUrl := Some (createObjectURL B f);
             isProcessing := false; error := None;
             resultImage := None; success := false |} in
        ([CreateObjectURL f; SetState next], next)
  end.

(** [handleReset] *)
Definition handleReset (B : Browser) (state : UploadState) : Run :=
  ((match previewUrl state with
    | None | Some EmptyString => []
    | Some url => [RevokeObjectURL url]
    end ++
    [SetState initial] ++
    (if file_input_mounted B then [ClearFileInput] else []))%list,
   initial).

(** [error instanceof Error ? error.message : 'An unexpected error occurred'] *)
Definition page_message_of (error : Thrown) : string :=
  match error with
  | JsError message => message
  | NonError => "An unexpected error occurred"
  end.

(** The [try] block of [handleGenerate]: the image of a good reply, or what
    is thrown. *)
Definition request_image (B : Browser) (f : File)
  : list PageEvent * (Thrown + option Payload) :=
  let sent := [PageLog [Txt "Sending request to API..."];
               PostPersonalize f "template1"] in
  match personalize B f "template1" with
  | inl failed => (sent, inl failed)
  | inr response =>
      match reply_json response with
      | inl unreadable => ((sent ++ [ReadJson])%list, inl unreadable)
      | inr data =>
          if negb (reply_ok response)
          then ((sent ++ [ReadJson])%list,
                inl (JsError (js_or (data_error data) "Failed to personalize image")))
          else ((sent ++ [ReadJson; PageLog [Txt "Received personalized image"]])%list,
                inr (data_image data))
      end
  end.

(** [handleGenerate] *)
Definition handleGenerate (B : Browser) (state : UploadState) : Run :=
  match file state with
  | None =>
      let next :=
        {| file := file state; previewUrl := previewUrl state;
           isProcessing := isProcessing state;
           error := Some "Please select an image first";
           resultImage := resultImage state; success := success state |} in
      ([SetState next], next)
  | Some f =>
      let busy :=
        {| file := file state; previewUrl := previewUrl state;
           isProcessing := true; error := None;
           resultImage := resultImage state; success := false |} in
      match request_image B f with
      | (effects, inr image) =>
          let next :=
            {| file := file busy; previewUrl := previewUrl busy;
               isProcessing := false; error := error busy;
               resultImage := image; success := true |} in
          ((SetState busy :: effects ++ [SetState next])%list, next)
      | (effects, inl thrown) =>
          let next :=
            {| file := file busy; previewUrl := previewUrl busy;
               isProcessing := false; error := Some (page_message_of thrown);
               resultImage := resultImage busy; success := success busy |} in
          ((SetState busy :: effects ++
            [PageError [Txt "Error:"; Caught thrown]; SetState next])%list, next)
      end
  end.

(** [handleDownload] *)
Definition handleDownload (B : Browser) (state : UploadState) : list PageEvent :=
  match resultImage state with
  | None | Some Empty => []
  | Some href =>
      [Download href ("pickabook-personalized-" +:+ pretty (now B) +:+ ".png")]
  end.

(** The reply the page gets when the request reaches [POST]: [response.ok]
    is a status from 200 to 299, and the JSON is the body. *)
Definition reply_of (response : Route.Response) : Reply :=
  {| reply_ok := (200 <=? Route.status response) && (Route.status response <=? 299);
     reply_json :=
       inr (match Route.body response with
            | Route.ErrorJson message _ =>
                {| data_error := Some message; data_image := None |}
            | Route.SuccessJson image _ =>
                {| data_error := None; data_image := Some image |}
            end) |}.

(** A browser whose requests are answered by the route on server [S]. *)
Definition browser_of (S : Server) (urls : File -> string) (clock : Z) : Browser :=
  {| createObjectURL := urls;
     now := clock;
     file_input_mounted := true;
     personalize := fun f template =>
       match answer
               (Route.POST S
                  (inr {| Route.form_image := Route.FileField f;
                          Route.form_template := Some template |})) with
       | Returned response => inr (reply_of response)
       | Threw failed => inl failed
       end |}.

(** One user action. *)
Inductive Action : Type :=
  | Select (selected : option File)
  | Reset
  | Generate.

Definition act (B : Browser) (a : Action) (state : UploadState) : UploadState :=
  match a with
  | Select selected => snd (handleFileSelect B selected state)
  | Reset => snd (handleReset B state)
  | Generate => snd (handleGenerate B state)
  end.

(** ** The page while requests are in flight

    [handleGenerate] awaits the reply.  Until it comes the page goes on
    handling events: [Clear] and [Change Photo] stay enabled, only the
    [Generate] button is disabled while [isProcessing] is set or no file is
    selected.  When the reply comes, the rest of the handler applies its
    update to the state of that moment ([setState((prev) => ...)]). *)

(** What the [try] block of [handleGenerate] makes of the answer to its
    request: the image of a good reply, or what is thrown. *)
Definition read_reply (answer : Thrown + Reply) : Thrown + option Payload :=
  match answer with
  | inl failed => inl failed
  | inr response =>
      match reply_json response with
      | inl unreadable => inl unreadable
      | inr data =>
          if negb (reply_ok response)
          then inl (JsError (js_or (data_error data) "Failed to personalize image"))
          else inr (data_image data)
      end
  end.

(** The update [handleGenerate] makes before it sends the request. *)
Definition begin_generate (state : UploadState) : UploadState :=
  {| file := file state; previewUrl := previewUrl state;
     isProcessing := true; error := None;
     resultImage := resultImage state; success := false |}.

(** The update [handleGenerate] makes once its request is answered, on the
    state [prev] of that moment. *)
Definition finish_generate (answer : Thrown + Reply) (prev : UploadState)
  : UploadState :=
  match read_reply answer with
  | inr image =>
      {| file := file prev; previewUrl := previewUrl prev;
         isProcessing := false; error := error prev;
         resultImage := image; success := true |}
  | inl thrown =>
      {| file := file prev; previewUrl := previewUrl prev;
         isProcessing := false; error := Some (page_message_of thrown);
         resultImage := resultImage prev; success := success prev |}
  end.

(** [disabled={!state.file || state.isProcessing}] of the [Generate]
    button. *)
Definition generate_disabled (state : UploadState) : bool :=
  match file state with
  | None => true
  | Some _ => isProcessing state
  end.

(** [Change Photo] and [Clear] are rendered when [state.previewUrl] is
    truthy. *)
Definition clear_rendered (state : UploadState) : bool :=
  match previewUrl state with
  | None | Some EmptyString => false
  | Some _ => true
  end.

(** The page between two events: the state on the screen and the files of
    the requests that are not answered yet, oldest first. *)
Record Session : Type := {
  shown : UploadState;
  in_flight : list File
}.

Definition opened : Session := {| shown := initial; in_flight := [] |}.

(** What can happen to the page: the file input changes, a button is
    clicked, or the request at position [n] of those in flight is answered. *)
Inductive Happening : Type :=
  | InputChanges (selected : option File)
  | ClickClear
  | ClickGenerate
  | ReplyArrives (n : nat) (answer : Thrown + Reply).

Definition happen (B : Browser) (h : Happening) (s : Session) : Session :=
  match h with
  | InputChanges selected =>
      {| shown := snd (handleFileSelect B selected (shown s));
         in_flight := in_flight s |}
  | ClickClear =>
      if clear_rendered (shown s)
      then {| shown := snd (handleReset B (shown s)); in_flight := in_flight s |}
      else s
  | ClickGenerate =>
      if generate_disabled (shown s) then s
      else
        match file (shown s) with
        | None =>
            {| shown :=
                 {| file := file (shown s); previewUrl := previewUrl (shown s);
                    isProcessing := isProcessing (shown s);
                    error := Some "Please select an image first";
                    resultImage := resultImage (shown s);
                    success := success (shown s) |};
               in_flight := in_flight s |}
        | Some f =>
            {| shown := begin_generate (shown s);
               in_flight := (in_flight s ++ [f])%list |}
        end
  | ReplyArrives n answer =>
      match in_flight s !! n with
      | None => s
      | Some _ =>
          {| shown := finish_generate answer (shown s);
             in_flight := delete n (in_flight s) |}
      end
  end.

(** The page after a sequence of happenings. *)
Definition unfold_session (B : Browser) (happenings : list Happening)
    (s : Session) : Session :=
  fold_left (fun s h => happen B h s) happenings s.
End Def.
End Page.

(** ** Vocabulary of the callers' properties *)

Section CallersVocabulary.
Context {L : ImageLibrary}.

(** The name the compositor resolves, and the file it looks for. *)
Definition requested (options : CompositeOptions) : string :=
  js_or (templateName options) "template1".

Definition requested_path (W : World) (options : CompositeOptions) : string :=
  template_path W (requested options).

(** What can go wrong inside [compositeOnTemplate], step by step, with the
    value that is thrown; a step is reached only when the steps before it
    went through.  A failing existence check is not among them: it is caught
    on the spot and selects the fallback. *)
Inductive internal_failure (W : World) (options : CompositeOptions)
  : Thrown -> Prop :=
  | unknown_name :
      get_property TEMPLATES (requested options) = Undefined ->
      internal_failure W options
        (JsError ("Template " +:+ requested options +:+ " not found"))
  | download_failed (e : Thrown) :
      get_property TEMPLATES (requested options) <> Undefined ->
      fetch_failure W (aiGeneratedImageUrl options) e ->
      internal_failure W options e
  | fallback_resize_rejected (denied : Thrown) (bytes : Buffer) (e : Thrown) :
      get_property TEMPLATES (requested options) <> Undefined ->
      fs_access W (requested_path W options) = Some denied ->
      fetch_success W (aiGeneratedImageUrl options) bytes ->
      toBuffer_result (resize 1024 1024 cover_center (sharp bytes)) = inl e ->
      internal_failure W options e
  | no_face_position (key : string) (bytes : Buffer) :
      get_property TEMPLATES (requested options) = Inherited key ->
      fs_access W (requested_path W options) = None ->
      fetch_success W (aiGeneratedImageUrl options) bytes ->
      internal_failure W options
        (JsError
           "Cannot destructure property 'x' of 'templateConfig.facePosition' as it is undefined.")
  | face_resize_rejected (config : TemplateConfig) (bytes : Buffer) (e : Thrown) :
      get_property TEMPLATES (requested options) = OwnConfig config ->
      fs_access W (requested_path W options) = None ->
      fetch_success W (aiGeneratedImageUrl options) bytes ->
      toBuffer_result
        (resize (width (facePosition config)) (height (facePosition config))
           cover_center (sharp bytes)) = inl e ->
      internal_failure W options e
  | template_unread (config : TemplateConfig) (bytes resizedFace : Buffer)
      (e : Thrown) :
      get_property TEMPLATES (requested options) = OwnConfig config ->
      fs_access W (requested_path W options) = None ->
      fetch_success W (aiGeneratedImageUrl options) bytes ->
      toBuffer_result
        (resize (width (facePosition config)) (height (facePosition config))
           cover_center (sharp bytes)) = inr resizedFace ->
      fs_readFile W (requested_path W options) = inl e ->
      internal_failure W options e
  | composite_rejected (config : TemplateConfig)
      (bytes resizedFace templateBuffer : Buffer) (e : Thrown) :
      get_property TEMPLATES (requested options) = OwnConfig config ->
      fs_access W (requested_path W options) = None ->
      fetch_success W (aiGeneratedImageUrl options) bytes ->
      toBuffer_result
        (resize (width (facePosition config)) (height (facePosition config))
           cover_center (sharp bytes)) = inr resizedFace ->
      fs_readFile W (requested_path W options) = inr templateBuffer ->
      toBuffer_result
        (png (composite [face_layer (facePosition config) resizedFace]
                (sharp templateBuffer))) = inl e ->
      internal_failure W options e.

(** File system and network effects of the compositor. *)
Definition is_io (e : Event) : bool :=
  match e with
  | FsAccess _ | FsReadFile _ | FsReaddir _ | Fetch _ => true
  | _ => false
  end.

Definition is_model_call (e : ServerEvent) : bool :=
  match e with ReplicateRun _ _ _ => true | _ => false end.

Definition is_compositing (e : ServerEvent) : bool :=
  match e with Compositing _ => true | _ => false end.

(** An upload the route lets through: a file of an allowed type that is not
    larger than the limit. *)
Definition valid_upload (form : Route.Form) : Prop :=
  exists f,
    Route.form_image form = Route.FileField f /\
    In (file_type f) Route.ALLOWED_TYPES /\
    file_size f <= Route.MAX_FILE_SIZE.

(** The token is set: [REPLICATE_API_TOKEN] is a non-empty string. *)
Definition token_is (S : Server) (token : string) : Prop :=
  REPLICATE_API_TOKEN S = Some token /\ token <> "".

(** The options the route calls the service with. *)
Definition route_options (f : File) : AiService.PersonalizationOptions :=
  {| AiService.imageBuffer := file_bytes f;
     AiService.prompt := Some Route.route_prompt |}.

Definition is_post (e : Page.PageEvent) : bool :=
  match e with Page.PostPersonalize _ _ => true | _ => false end.

(** What holds of the page whatever happens, also while requests are in
    flight: a file is selected exactly when it has a preview, and the
    spinner is on only while a request is not answered yet. *)
Definition paired (s : Page.Session) : Prop :=
  (Page.file (Page.shown s) = None <-> Page.previewUrl (Page.shown s) = None) /\
  (Page.isProcessing (Page.shown s) = true -> Page.in_flight s <> []).

(** The form the page posts for a file. *)
Definition posted_form (f : File) : Route.Form :=
  {| Route.form_image := Route.FileField f;
     Route.form_template := Some "template1" |}.

(** A file the page lets through. *)
Definition page_accepts (f : File) : Prop :=
  String.prefix "image/" (file_type f) = true /\ file_size f <= Page.MAX_SIZE.
End CallersVocabulary.

(** ** The cover/center resize law

    The law as the specification words it, on exact rationals: the source is
    scaled uniformly by [max(Tw/Sw, Th/Sh)] and the scaled image is cropped
    to the target about its centre.  On the pixel grid a crop cuts whole
    pixels, and a target pixel shows the source pixel under its corner. *)

Definition cover_scale (Sw Sh Tw Th : Z) : Q :=
  Qmax (inject_Z Tw / inject_Z Sw) (inject_Z Th / inject_Z Sh).

(** The size of the scaled image along one axis, in whole pixels. *)
Definition scaled_size (source : Z) (scale : Q) : Z :=
  Qfloor (inject_Z source * scale).

(** The pixels of the scaled image that the centred crop cuts off before the
    target along one axis: half of the overflow. *)
Definition crop_before (source target : Z) (scale : Q) : Z :=
  Qfloor ((inject_Z source * scale - inject_Z target) / 2).

(** The pixels it cuts off after the target. *)
Definition crop_after (source target : Z) (scale : Q) : Z :=
  scaled_size source scale - target - crop_before source target scale.

(** The source pixel shown at target pixel [p] along one axis. *)
Definition shown_source (source target : Z) (scale : Q) (p : Z) : Z :=
  Qfloor (inject_Z (p + crop_before source target scale) / scale).

(** ** Concrete uploads, servers and browsers *)

(** [template1.png] exists and can be read, but it is not an image. *)
Definition garbled_world : World :=
  world_with_templates
    [("template1.png", inr (OtherFile "<!DOCTYPE html>"))]
    (inr (ok_response (ImageFile PNG (solid 1024 1024 black)))).

Definition photo : File :=
  {| file_name := "child.png"; file_type := "image/png"; file_size := 204800;
     file_bytes := ImageFile PNG (solid 800 600 black) |}.

(** A photo of exactly the largest size the route accepts. *)
Definition largest_photo : File :=
  {| file_name := "big.jpg"; file_type := "image/jpeg"; file_size := 10485760;
     file_bytes := jpeg_source |}.

(** One byte more. *)
Definition oversized_photo : File :=
  {| file_name := "huge.jpg"; file_type := "image/jpeg"; file_size := 10485761;
     file_bytes := jpeg_source |}.

Definition animation : File :=
  {| file_name := "wave.gif"; file_type := "image/gif"; file_size := 4096;
     file_bytes := OtherFile "GIF89a" |}.

Definition notes : File :=
  {| file_name := "notes.txt"; file_type := "text/plain"; file_size := 12;
     file_bytes := OtherFile "hello" |}.

Definition upload (f : File) (template : option string) : Route.Form :=
  {| Route.form_image := Route.FileField f; Route.form_template := template |}.

(** A configured production server on [studio_world] whose model host
    answers every call with [model_answer]. *)
Definition studio_server (model_answer : Thrown + Replicate.Output) : Server :=
  {| world := studio_world;
     REPLICATE_API_TOKEN := Some "r8_token";
     NODE_ENV := Some "production";
     replicate_run := fun _ _ _ => model_answer;
     replicate_models_get := fun _ _ _ => None |}.

(** The same server without its token. *)
Definition unconfigured_server : Server :=
  {| world := studio_world;
     REPLICATE_API_TOKEN := None;
     NODE_ENV := Some "production";
     replicate_run := fun _ _ _ => inr (Replicate.Items [served_url]);
     replicate_models_get := fun _ _ _ => None |}.

Definition object_url (f : File) : string := "blob:" +:+ file_name f.

(** A good reply of the route: status 200 and an image. *)
Definition illustration : Page.Data :=
  {| Page.data_error := None;
     Page.data_image := Some (Data {| mime := "image/png"; body := jpeg_source |}) |}.

Definition ready : Page.Reply :=
  {| Page.reply_ok := true; Page.reply_json := inr illustration |}.

(** A browser tab talking to a server whose model answers with the served
    image. *)
Definition tab : Page.Browser :=
  Page.browser_of (studio_server (inr (Replicate.Items [served_url])))
    object_url 1700000000000.

(** * Strings: [endsWith] and [replace] on file names *)

Section Strings.

Example endsWith_png : endsWith "template1.png" ".png" = true.
Proof. reflexivity. Qed.

Example endsWith_short : endsWith "png" ".png" = false.
Proof. reflexivity. Qed.

Example endsWith_other : endsWith "README.md" ".png" = false.
Proof. reflexivity. Qed.

Example replace_suffix : replace ".png" "" "template1.png" = "template1".
Proof. reflexivity. Qed.

Example replace_first_only : replace ".png" "" "a.png.png" = "a.png".
Proof. reflexivity. Qed.

Example replace_absent : replace ".png" "" "README.md" = "README.md".
Proof. reflexivity. Qed.

Lemma append_cons c (a b : string) : String c a +:+ b = String c (a +:+ b).
Proof. reflexivity. Qed.

Lemma prefix_cons a (s1 : string) b (s2 : string) :
  String.prefix (String a s1) (String b s2) =
  if ascii_dec a b then String.prefix s1 s2 else false.
Proof. reflexivity. Qed.

Lemma occurs_tail pattern c s :
  ~ occurs pattern (String c s) -> ~ occurs pattern s.
Proof.
  intros Hnot (before & after & ->). apply Hnot.
  exists (String c before), after. reflexivity.
Qed.

Lemma length_append (a b : string) :
  String.length (a +:+ b) = (String.length a + String.length b)%nat.
Proof.
  induction a as [ | c a IH ]; [ reflexivity | ].
  rewrite append_cons. cbn. rewrite IH. reflexivity.
Qed.

Lemma substring_whole (s : string) : String.substring 0 (String.length s) s = s.
Proof. induction s as [ | c s IH ]; cbn; [ reflexivity | rewrite IH; reflexivity ]. Qed.

Lemma substring_append (a b : string) :
  String.substring (String.length a) (String.length b) (a +:+ b) = b.
Proof.
  induction a as [ | c a IH ].
  - apply substring_whole.
  - rewrite append_cons. cbn. exact IH.
Qed.

(** A name built as [stem ++ ".png"] ends with [.png]. *)
Lemma endsWith_append stem suffix : endsWith (stem +:+ suffix) suffix = true.
Proof.
  unfold endsWith. rewrite length_append.
  replace (String.length stem + String.length suffix - String.length suffix)%nat
    with (String.length stem) by lia.
  rewrite substring_append, String.eqb_refl.
  rewrite andb_true_r. apply Nat.leb_le. lia.
Qed.

(** [.png] cannot start inside a stem without an occurrence and run over
    into the suffix: [.] occurs in [.png] only as its first character. *)
Lemma png_not_prefix c stem :
  ~ occurs ".png" (String c stem) ->
  String.prefix ".png" (String c stem +:+ ".png") = false.
Proof.
  intros Hnot. rewrite append_cons, prefix_cons.
  destruct (ascii_dec "." c) as [ <- | ]; [ | reflexivity ].
  destruct stem as [ | c1 stem ]; [ reflexivity | ].
  rewrite append_cons, prefix_cons.
  destruct (ascii_dec "p" c1) as [ <- | ]; [ | reflexivity ].
  destruct stem as [ | c2 stem ]; [ reflexivity | ].
  rewrite append_cons, prefix_cons.
  destruct (ascii_dec "n" c2) as [ <- | ]; [ | reflexivity ].
  destruct stem as [ | c3 stem ]; [ reflexivity | ].
  rewrite append_cons, prefix_cons.
  destruct (ascii_dec "g" c3) as [ <- | ]; [ | reflexivity ].
  exfalso. apply Hnot. exists "", stem. reflexivity.
Qed.

(** On a name whose only [.png] is its suffix, [replace] strips the
    suffix. *)
Lemma replace_strips_suffix stem :
  ~ occurs ".png" stem -> replace ".png" "" (stem +:+ ".png") = stem.
Proof.
  induction stem as [ | c stem IH ]; intros Hnot.
  - reflexivity.
  - change (replace ".png" "" (String c stem +:+ ".png"))
      with (if String.prefix ".png" (String c stem +:+ ".png")
            then "" +:+ String.substring (String.length ".png")
                          (String.length (String c stem +:+ ".png")
                           - String.length ".png")
                          (String c stem +:+ ".png")
            else String c (replace ".png" "" (stem +:+ ".png"))).
    rewrite (png_not_prefix c stem Hnot).
    rewrite IH by (eapply occurs_tail; eassumption). reflexivity.
Qed.
End Strings.

(** * Properties *)

Section Registry.

Lemma TEMPLATES_template1 :
  TEMPLATES !! "template1" =
  Some {| name := "template1";
          facePosition := {| x := 300; y := 150; width := 400; height := 400 |} |}.
Proof. reflexivity. Qed.

Lemma TEMPLATES_template2 :
  TEMPLATES !! "template2" =
  Some {| name := "template2";
          facePosition := {| x := 250; y := 100; width := 500; height := 500 |} |}.
Proof. reflexivity. Qed.

Lemma TEMPLATES_keys : dom TEMPLATES = ({[ "template1"; "template2" ]} : gset string).
Proof. unfold TEMPLATES. rewrite dom_insert_L, dom_singleton_L. reflexivity. Qed.

Lemma TEMPLATES_lookup_Some key config :
  TEMPLATES !! key = Some config ->
  key = "template1" \/ key = "template2".
Proof.
  intros H. apply (elem_of_dom_2 (D := gset string)) in H.
  rewrite TEMPLATES_keys in H. set_solver.
Qed.

Lemma TEMPLATES_slot key config :
  TEMPLATES !! key = Some config ->
  0 <= x (facePosition config) /\ 0 <= y (facePosition config) /\
  0 < width (facePosition config) /\ 0 < height (facePosition config).
Proof.
  intros H. destruct (TEMPLATES_lookup_Some _ _ H) as [-> | ->].
  - rewrite TEMPLATES_template1 in H. injection H as <-. cbn. lia.
  - rewrite TEMPLATES_template2 in H. injection H as <-. cbn. lia.
Qed.

Lemma get_property_own key config :
  TEMPLATES !! key = Some config ->
  get_property TEMPLATES key = OwnConfig config.
Proof. intros H. unfold get_property. rewrite H. reflexivity. Qed.

Lemma Object_prototype_keys_not_own key :
  key ∈ Object_prototype_keys -> TEMPLATES !! key = None.
Proof.
  intros H. destruct (TEMPLATES !! key) eqn:E; [ | reflexivity ].
  exfalso. destruct (TEMPLATES_lookup_Some _ _ E) as [-> | ->].
  - assert (Hn : bool_decide ("template1" ∈ Object_prototype_keys) = false)
      by reflexivity.
    apply bool_decide_eq_false in Hn. contradiction.
  - assert (Hn : bool_decide ("template2" ∈ Object_prototype_keys) = false)
      by reflexivity.
    apply bool_decide_eq_false in Hn. contradiction.
Qed.

Lemma get_property_inherited key :
  key ∈ Object_prototype_keys -> get_property TEMPLATES key = Inherited key.
Proof.
  intros H. unfold get_property.
  rewrite (Object_prototype_keys_not_own _ H).
  rewrite bool_decide_eq_true_2 by assumption. reflexivity.
Qed.

Lemma get_property_undefined key :
  get_property TEMPLATES key = Undefined <->
  TEMPLATES !! key = None /\ key ∉ Object_prototype_keys.
Proof.
  unfold get_property. destruct (TEMPLATES !! key).
  - split; [ discriminate | intros [? _]; discriminate ].
  - destruct (bool_decide (key ∈ Object_prototype_keys)) eqn:E.
    + apply bool_decide_eq_true in E.
      split; [ discriminate | intros [_ ?]; contradiction ].
    + apply bool_decide_eq_false in E. split; auto.
Qed.
End Registry.

Section Runs.
Context {L : ImageLibrary}.
Variable W : World.

Lemma downloadImage_success url bytes :
  fetch_success W url bytes ->
  downloadImage W url =
  ([ConsoleLog [Str "Downloading AI-generated image from:"; Str url];
    Fetch url; ArrayBuffer url], Returned bytes).
Proof.
  intros (response & Hfetch & Hok & Hbody).
  unfold downloadImage, perform. rewrite Hfetch. cbn. rewrite Hok. cbn.
  rewrite Hbody. reflexivity.
Qed.

Lemma downloadImage_failure url e :
  fetch_failure W url e ->
  exists rest,
    downloadImage W url =
    (ConsoleLog [Str "Downloading AI-generated image from:"; Str url]
       :: Fetch url :: rest, Threw e) /\
    List.filter is_fetch rest = [] /\ List.filter is_processing rest = [].
Proof.
  intros Hfail. unfold downloadImage, perform.
  destruct Hfail as [e Hfetch | response Hfetch Hok | response e Hfetch Hok Hbody];
    rewrite Hfetch; cbn; [ | rewrite Hok; cbn | rewrite Hok; cbn; rewrite Hbody; cbn ];
    eexists; (split; [ reflexivity | split; reflexivity ]).
Qed.

Lemma downloadImage_cases url :
  (exists bytes, fetch_success W url bytes) \/ (exists e, fetch_failure W url e).
Proof.
  destruct (fetch W url) as [e | response] eqn:Hfetch.
  - right. exists e. apply network_error. assumption.
  - destruct (ok response) eqn:Hok.
    + destruct (arrayBuffer response) as [e | bytes] eqn:Hbody.
      * right. exists e. eapply body_error; eassumption.
      * left. exists bytes, response. auto.
    + right. eexists. eapply bad_status; eassumption.
Qed.

(** A pipeline only rejects with a described error. *)
Lemma draw_all_described images canvas e :
  draw_all images canvas = inl e -> message_of e <> "".
Proof.
  revert canvas. induction images as [ | layer rest IH ]; intros canvas; cbn.
  - discriminate.
  - destruct (decode_image (input layer)) as [ [? over_image] | ].
    + destruct (_ || _).
      * intros [= <-]. discriminate.
      * apply IH.
    + intros [= <-]. discriminate.
Qed.

Lemma toBuffer_result_described s e :
  toBuffer_result s = inl e -> message_of e <> "".
Proof.
  unfold toBuffer_result.
  destruct (decode_image (sharp_input s)) as [ [format image] | ].
  - destruct (draw_all _ _) eqn:Hdraw; [ | discriminate ].
    intros [= <-]. eapply draw_all_described, Hdraw.
  - intros [= <-]. discriminate.
Qed.

Lemma fetch_failure_described url e :
  errors_described W -> fetch_failure W url e -> message_of e <> "".
Proof.
  intros HW [e' Hfetch | response Hfetch Hok | response e' Hfetch Hok Hbody].
  - eapply fetch_described; eassumption.
  - discriminate.
  - eapply body_described; eassumption.
Qed.

(** *** The four ways through [compositeOnTemplate] *)

Lemma run_unknown options :
  get_property TEMPLATES (js_or (templateName options) "template1") = Undefined ->
  compositeOnTemplate W options =
  ([ConsoleError
      [Str "Image Compositor Error:";
       Err (JsError ("Template " +:+ js_or (templateName options) "template1"
                       +:+ " not found"))]],
   Returned (failure ("Template " +:+ js_or (templateName options) "template1"
                        +:+ " not found"))).
Proof. intros H. unfold compositeOnTemplate. rewrite H. reflexivity. Qed.

Lemma run_download_failure options e :
  truthy (get_property TEMPLATES (js_or (templateName options) "template1")) = true ->
  fetch_failure W (aiGeneratedImageUrl options) e ->
  outcome (compositeOnTemplate W options) = Returned (failure (message_of e)) /\
  List.filter is_fetch (trace (compositeOnTemplate W options)) =
    [Fetch (aiGeneratedImageUrl options)] /\
  List.filter is_processing (trace (compositeOnTemplate W options)) = [].
Proof.
  intros Htruthy Hfail.
  destruct (downloadImage_failure _ _ Hfail) as (rest & Hrun & Hfetch & Hproc).
  unfold compositeOnTemplate. rewrite Htruthy. cbn.
  destruct (fs_access W _); cbn; rewrite Hrun; cbn;
    rewrite !List.filter_app, Hfetch, Hproc; auto.
Qed.

Lemma run_fallback options e bytes :
  truthy (get_property TEMPLATES (js_or (templateName options) "template1")) = true ->
  fs_access W (template_path W (js_or (templateName options) "template1")) = Some e ->
  fetch_success W (aiGeneratedImageUrl options) bytes ->
  outcome (compositeOnTemplate W options) =
    Returned
      match toBuffer_result (resize 1024 1024 cover_center (sharp bytes)) with
      | inr resized => success resized
      | inl rejected => failure (message_of rejected)
      end /\
  List.filter is_processing (trace (compositeOnTemplate W options)) =
    [SharpToBuffer (resize 1024 1024 cover_center (sharp bytes))].
Proof.
  intros Htruthy Hacc Hdl. unfold compositeOnTemplate.
  rewrite Htruthy. cbn. rewrite Hacc. cbn.
  rewrite (downloadImage_success _ _ Hdl). cbn.
  destruct (toBuffer_result _); cbn; auto.
Qed.

Lemma run_composite options config bytes resizedFace templateBuffer :
  TEMPLATES !! js_or (templateName options) "template1" = Some config ->
  fs_access W (template_path W (js_or (templateName options) "template1")) = None ->
  fetch_success W (aiGeneratedImageUrl options) bytes ->
  toBuffer_result
    (resize (width (facePosition config)) (height (facePosition config))
       cover_center (sharp bytes)) = inr resizedFace ->
  fs_readFile W (template_path W (js_or (templateName options) "template1")) =
    inr templateBuffer ->
  outcome (compositeOnTemplate W options) =
    Returned
      (match toBuffer_result
               (png (composite [face_layer (facePosition config) resizedFace]
                       (sharp templateBuffer))) with
       | inr composited => success composited
       | inl rejected => failure (message_of rejected)
       end).
Proof.
  intros Hreg Hacc Hdl Hface Hread. unfold compositeOnTemplate.
  rewrite (get_property_own _ _ Hreg). cbn. rewrite Hacc. cbn.
  rewrite (downloadImage_success _ _ Hdl). cbn.
  rewrite Hface. cbn. rewrite Hread. cbn.
  unfold face_layer. destruct (toBuffer_result (png _)); reflexivity.
Qed.

(** The composite path, as far as it gets: the face is resized, the
    template is read, the face is drawn; the first step that fails decides
    the result and ends the run. *)
Lemma run_composite_path options config bytes :
  get_property TEMPLATES (js_or (templateName options) "template1") =
    OwnConfig config ->
  fs_access W (template_path W (js_or (templateName options) "template1")) = None ->
  fetch_success W (aiGeneratedImageUrl options) bytes ->
  let path := template_path W (js_or (templateName options) "template1") in
  let face :=
    resize (width (facePosition config)) (height (facePosition config))
      cover_center (sharp bytes) in
  outcome (compositeOnTemplate W options) =
    Returned
      match toBuffer_result face with
      | inl rejected => failure (message_of rejected)
      | inr resizedFace =>
          match fs_readFile W path with
          | inl unread => failure (message_of unread)
          | inr templateBuffer =>
              match toBuffer_result
                      (png (composite [face_layer (facePosition config) resizedFace]
                              (sharp templateBuffer))) with
              | inl rejected => failure (message_of rejected)
              | inr composited => success composited
              end
          end
      end /\
  List.filter is_processing (trace (compositeOnTemplate W options)) =
    SharpToBuffer face ::
      match toBuffer_result face with
      | inl _ => []
      | inr resizedFace =>
          FsReadFile path ::
            match fs_readFile W path with
            | inl _ => []
            | inr templateBuffer =>
                [SharpToBuffer
                   (png (composite [face_layer (facePosition config) resizedFace]
                           (sharp templateBuffer)))]
            end
      end.
Proof.
  intros Hprop Hacc Hdl. cbv zeta. unfold compositeOnTemplate.
  rewrite Hprop. cbn. rewrite Hacc. cbn.
  rewrite (downloadImage_success _ _ Hdl). cbn.
  destruct (toBuffer_result (resize _ _ _ _)) as [rejected | resizedFace]; cbn;
    [ auto | ].
  destruct (fs_readFile W _) as [unread | templateBuffer]; cbn; [ auto | ].
  unfold face_layer.
  destruct (toBuffer_result (png _)) as [rejected | composited]; cbn; auto.
Qed.

(** A member of [Object.prototype] whose file exists: the download is made,
    then reading its [facePosition] throws. *)
Lemma run_inherited options key bytes :
  get_property TEMPLATES (js_or (templateName options) "template1") =
    Inherited key ->
  fs_access W (template_path W (js_or (templateName options) "template1")) = None ->
  fetch_success W (aiGeneratedImageUrl options) bytes ->
  outcome (compositeOnTemplate W options) =
    Returned
      (failure
         "Cannot destructure property 'x' of 'templateConfig.facePosition' as it is undefined.") /\
  List.filter is_processing (trace (compositeOnTemplate W options)) = [].
Proof.
  intros Hprop Hacc Hdl. unfold compositeOnTemplate.
  rewrite Hprop. cbn. rewrite Hacc. cbn.
  rewrite (downloadImage_success _ _ Hdl). cbn. auto.
Qed.

Lemma get_property_own_inv key config :
  get_property TEMPLATES key = OwnConfig config -> TEMPLATES !! key = Some config.
Proof.
  unfold get_property. destruct (TEMPLATES !! key); [ congruence | ].
  destruct (bool_decide _); discriminate.
Qed.

Lemma truthy_defined key :
  get_property TEMPLATES key <> Undefined <->
  truthy (get_property TEMPLATES key) = true.
Proof.
  destruct (get_property TEMPLATES key); cbn; split; congruence.
Qed.

(** Every resize the compositor asks for: which buffer, which options,
    which size, and on which path. *)
Lemma resize_in_run options s w h o :
  In (SharpToBuffer s) (trace (compositeOnTemplate W options)) ->
  sharp_resize s = Some (w, h, o) ->
  exists bytes,
    fetch_success W (aiGeneratedImageUrl options) bytes /\
    s = resize w h cover_center (sharp bytes) /\
    o = cover_center /\
    (((exists denied,
         fs_access W (template_path W (js_or (templateName options) "template1")) =
           Some denied) /\
      w = 1024 /\ h = 1024) \/
     (fs_access W (template_path W (js_or (templateName options) "template1")) =
        None /\
      exists config,
        TEMPLATES !! js_or (templateName options) "template1" = Some config /\
        w = width (facePosition config) /\ h = height (facePosition config))).
Proof.
  intros Hin Hresize.
  assert (Hproc : In (SharpToBuffer s)
                    (List.filter is_processing (trace (compositeOnTemplate W options))))
    by (apply List.filter_In; split; [ assumption | reflexivity ]).
  clear Hin.
  destruct (get_property TEMPLATES (js_or (templateName options) "template1"))
    as [config | key | ] eqn:Hprop.
  3: { rewrite (run_unknown options Hprop) in Hproc. destruct Hproc. }
  all: assert (Htruthy : truthy (get_property TEMPLATES
                            (js_or (templateName options) "template1")) = true)
         by (rewrite Hprop; reflexivity).
  all: destruct (downloadImage_cases (aiGeneratedImageUrl options))
         as [ [bytes Hdl] | [failed Hfail] ].
  2, 4: destruct (run_download_failure options failed Htruthy Hfail)
          as (_ & _ & Htrace); rewrite Htrace in Hproc; destruct Hproc.
  all: destruct (fs_access W (template_path W
                   (js_or (templateName options) "template1"))) as [denied | ] eqn:Hacc.
  1, 3: destruct (run_fallback options denied bytes Htruthy Hacc Hdl) as [_ Htrace];
    rewrite Htrace in Hproc; destruct Hproc as [ [= <-] | [] ];
    cbn in Hresize; injection Hresize as <- <- <-;
    exists bytes; repeat split; eauto.
  - (* a registered template whose file exists *)
    destruct (run_composite_path options config bytes Hprop Hacc Hdl) as [_ Htrace].
    cbv zeta in Htrace. rewrite Htrace in Hproc. clear Htrace.
    assert (Hface : s = resize (width (facePosition config))
                          (height (facePosition config)) cover_center (sharp bytes)).
    { destruct Hproc as [ [= <-] | Hproc ]; [ reflexivity | ].
      destruct (toBuffer_result (resize _ _ _ _)); [ destruct Hproc | ].
      destruct Hproc as [ [=] | Hproc ].
      destruct (fs_readFile W _); [ destruct Hproc | ].
      destruct Hproc as [ [= <-] | [] ]. discriminate Hresize. }
    subst s. cbn in Hresize. injection Hresize as <- <- <-.
    exists bytes. repeat split; auto.
    right. split; [ reflexivity | ].
    exists config. auto using get_property_own_inv.
  - (* an inherited member of Object.prototype whose file exists *)
    destruct (run_inherited options key bytes Hprop Hacc Hdl) as [_ Htrace].
    rewrite Htrace in Hproc. destruct Hproc.
Qed.

(** Every internal failure is what the boundary reports. *)
Lemma internal_failure_outcome options e :
  internal_failure W options e ->
  outcome (compositeOnTemplate W options) = Returned (failure (message_of e)).
Proof.
  intros [ Hprop | failed Hprop Hfail | denied bytes rejected Hprop Hacc Hdl Hrun
         | key bytes Hprop Hacc Hdl | config bytes rejected Hprop Hacc Hdl Hface
         | config bytes resizedFace unread Hprop Hacc Hdl Hface Hread
         | config bytes resizedFace templateBuffer rejected Hprop Hacc Hdl Hface
             Hread Hrun ];
    unfold requested_path, requested in *.
  - rewrite (run_unknown options Hprop). reflexivity.
  - apply truthy_defined in Hprop.
    destruct (run_download_failure options failed Hprop Hfail) as [-> _].
    reflexivity.
  - apply truthy_defined in Hprop.
    destruct (run_fallback options denied bytes Hprop Hacc Hdl) as [-> _].
    rewrite Hrun. reflexivity.
  - destruct (run_inherited options key bytes Hprop Hacc Hdl) as [-> _].
    reflexivity.
  - destruct (run_composite_path options config bytes Hprop Hacc Hdl) as [-> _].
    rewrite Hface. reflexivity.
  - destruct (run_composite_path options config bytes Hprop Hacc Hdl) as [-> _].
    rewrite Hface, Hread. reflexivity.
  - destruct (run_composite_path options config bytes Hprop Hacc Hdl) as [-> _].
    rewrite Hface, Hread, Hrun. reflexivity.
Qed.

(** The compositor returns a success, or the message of an internal
    failure. *)
Lemma outcome_cases options :
  (exists bytes,
      outcome (compositeOnTemplate W options) = Returned (success bytes)) \/
  (exists e,
      internal_failure W options e /\
      outcome (compositeOnTemplate W options) = Returned (failure (message_of e))).
Proof.
  assert (Hreport : forall e, internal_failure W options e ->
            exists e',
              internal_failure W options e' /\
              outcome (compositeOnTemplate W options) =
                Returned (failure (message_of e')))
    by (intros e He; exists e; auto using internal_failure_outcome).
  destruct (get_property TEMPLATES (js_or (templateName options) "template1"))
    as [config | key | ] eqn:Hprop.
  3: { right. apply (Hreport _ (unknown_name W options Hprop)). }
  all: assert (Hdefined : get_property TEMPLATES (requested options) <> Undefined)
         by (unfold requested; rewrite Hprop; discriminate).
  all: destruct (downloadImage_cases (aiGeneratedImageUrl options))
         as [ [bytes Hdl] | [failed Hfail] ].
  2, 4: right; apply (Hreport _ (download_failed W options failed Hdefined Hfail)).
  all: destruct (fs_access W (template_path W
                   (js_or (templateName options) "template1"))) as [denied | ] eqn:Hacc.
  1, 3: destruct (toBuffer_result (resize 1024 1024 cover_center (sharp bytes)))
          as [rejected | resized] eqn:Hrun;
    [ right;
      apply (Hreport _ (fallback_resize_rejected W options denied bytes rejected
                          Hdefined Hacc Hdl Hrun))
    | left; exists resized;
      destruct (run_fallback options denied bytes) as [-> _];
      [ apply truthy_defined; exact Hdefined | assumption | assumption | ];
      rewrite Hrun; reflexivity ].
  - destruct (toBuffer_result
                (resize (width (facePosition config)) (height (facePosition config))
                   cover_center (sharp bytes)))
      as [rejected | resizedFace] eqn:Hface.
    { right. apply (Hreport _ (face_resize_rejected W options config bytes rejected
                                 Hprop Hacc Hdl Hface)). }
    destruct (fs_readFile W (template_path W
                (js_or (templateName options) "template1")))
      as [unread | templateBuffer] eqn:Hread.
    { right. apply (Hreport _ (template_unread W options config bytes resizedFace
                                 unread Hprop Hacc Hdl Hface Hread)). }
    destruct (toBuffer_result
                (png (composite [face_layer (facePosition config) resizedFace]
                        (sharp templateBuffer))))
      as [rejected | composited] eqn:Hrun.
    { right. apply (Hreport _ (composite_rejected W options config bytes resizedFace
                                 templateBuffer rejected Hprop Hacc Hdl Hface Hread
                                 Hrun)). }
    left. exists composited.
    destruct (run_composite_path options config bytes Hprop Hacc Hdl) as [-> _].
    rewrite Hface, Hread, Hrun. reflexivity.
  - right. apply (Hreport _ (no_face_position W options key bytes Hprop Hacc Hdl)).
Qed.

(** The message of an internal failure is not empty, as long as the errors
    of the file system and of the network carry one. *)
Lemma internal_failure_described options e :
  errors_described W -> internal_failure W options e -> message_of e <> "".
Proof.
  intros HW
    [ Hprop | failed Hprop Hfail | denied bytes rejected Hprop Hacc Hdl Hrun
    | key bytes Hprop Hacc Hdl | config bytes rejected Hprop Hacc Hdl Hface
    | config bytes resizedFace unread Hprop Hacc Hdl Hface Hread
    | config bytes resizedFace templateBuffer rejected Hprop Hacc Hdl Hface
        Hread Hrun ].
  - discriminate.
  - eapply fetch_failure_described; eassumption.
  - eapply toBuffer_result_described; eassumption.
  - discriminate.
  - eapply toBuffer_result_described; eassumption.
  - eapply readFile_described; eassumption.
  - eapply toBuffer_result_described; eassumption.
Qed.

(** Past the registry check the first thing the compositor does is probe
    the template file. *)
Lemma run_probes_file options :
  truthy (get_property TEMPLATES (js_or (templateName options) "template1")) = true ->
  exists rest,
    trace (compositeOnTemplate W options) =
    ConsoleLog [Str "Loading template from:";
                Str (template_path W (js_or (templateName options) "template1"))]
      :: FsAccess (template_path W (js_or (templateName options) "template1"))
      :: rest.
Proof.
  intros Htruthy. unfold compositeOnTemplate. rewrite Htruthy. cbn.
  destruct (fs_access W _); cbn;
    destruct (bind (downloadImage W _) _) as [after [value | thrown] ];
    cbn; eexists; reflexivity.
Qed.
End Runs.

Section Library.
Context {L : ImageLibrary}.
Hypothesis contract : SharpContract.

(** A cover resize of a decodable buffer resolves with an image of exactly
    the requested size, in the format of its input. *)
Lemma resize_cover_toBuffer bytes format image w h :
  decode_image bytes = Some (format, image) -> 0 < w -> 0 < h ->
  exists resized decoded,
    toBuffer_result (resize w h cover_center (sharp bytes)) = inr resized /\
    decode_image resized = Some (output_format None format, decoded) /\
    img_width decoded = w /\ img_height decoded = h.
Proof.
  intros Hdecode Hw Hh. unfold toBuffer_result. cbn. rewrite Hdecode. cbn.
  destruct (decode_encode contract (output_format None format)
              (resample cover_center w h image)) as (decoded & Hback & Hwd & Hht);
    [ destruct format; discriminate | ].
  destruct (resample_cover contract cover_center w h image eq_refl Hw Hh)
    as [Hrw Hrh].
  eexists _, decoded. split; [ reflexivity | ].
  split; [ exact Hback | ]. split; congruence.
Qed.

(** Drawing one layer that fits on a decodable template resolves with a
    PNG of the drawn canvas. *)
Lemma composite_toBuffer templateBuffer tformat timage slot faceBuffer fformat face :
  decode_image templateBuffer = Some (tformat, timage) ->
  decode_image faceBuffer = Some (fformat, face) ->
  img_width face <= img_width timage ->
  img_height face <= img_height timage ->
  exists composited decoded,
    toBuffer_result
      (png (composite [face_layer slot faceBuffer] (sharp templateBuffer))) =
      inr composited /\
    decode_image composited = Some (PNG, decoded) /\
    same_image (draw Over face (x slot) (y slot) timage) decoded.
Proof.
  intros Htemplate Hface Hw Hh. unfold toBuffer_result. cbn.
  rewrite Htemplate. cbn. rewrite Hface.
  replace (img_width timage <? img_width face) with false
    by (symmetry; apply Z.ltb_ge; assumption).
  replace (img_height timage <? img_height face) with false
    by (symmetry; apply Z.ltb_ge; assumption).
  cbn.
  destruct (decode_encode_png contract (draw Over face (x slot) (y slot) timage))
    as (decoded & Hback & Hsame).
  eexists _, decoded. split; [ reflexivity | ]. split; assumption.
Qed.
End Library.

Lemma in_slot_test slot px py :
  (x slot <=? px) && (px <? x slot + width slot) &&
  (y slot <=? py) && (py <? y slot + height slot) = true <-> in_slot slot px py.
Proof.
  unfold in_slot. rewrite !andb_true_iff, !Z.leb_le, !Z.ltb_lt. tauto.
Qed.

Lemma reference_contract : SharpContract (L := reference_library).
Proof.
  constructor.
  - intros f i _. exists i. auto.
  - intros i. exists i. unfold same_image. auto.
  - intros options w h i _ _ _. auto.
Qed.

(** * The properties C1 to C10 *)

(** The two shapes of a result at the boundary. *)
Ltac succeeded :=
  eexists; split; [ reflexivity | left; eexists; reflexivity ].

Ltac failed_with tac :=
  eexists; split;
  [ reflexivity
  | right; eexists; split; [ reflexivity | intros ?; tac ] ].

Section Specification.
Context {L : ImageLibrary}.
Variable W : World.

(** C1 (what the code does).  In fallback mode (the template is registered
    and [fs.access] fails) a decodable source yields a success whose image
    is exactly 1024 by 1024, but its encoding is the encoding of the
    source, not PNG: the fallback pipeline never calls [.png()], although
    the result is labelled [image/png]. *)
Theorem fallback_keeps_source_format options config e bytes format image :
  SharpContract ->
  TEMPLATES !! js_or (templateName options) "template1" = Some config ->
  fs_access W (template_path W (js_or (templateName options) "template1")) = Some e ->
  fetch_success W (aiGeneratedImageUrl options) bytes ->
  decode_image bytes = Some (format, image) ->
  format <> SVG ->
  exists resized decoded,
    outcome (compositeOnTemplate W options) = Returned (success resized) /\
    decode_image resized = Some (format, decoded) /\
    img_width decoded = 1024 /\ img_height decoded = 1024.
Proof.
  intros contract Hreg Hacc Hdl Hdecode Hsvg.
  destruct (resize_cover_toBuffer contract bytes format image 1024 1024 Hdecode)
    as (resized & decoded & Hrun & Hback & Hw & Hh); [ lia | lia | ].
  exists resized, decoded.
  destruct (run_fallback W options e bytes) as [Hout _]; auto.
  { rewrite (get_property_own _ _ Hreg). reflexivity. }
  rewrite Hout, Hrun. repeat split; auto.
  rewrite Hback. destruct format; try reflexivity. contradiction.
Qed.


(** C3 (what the code does).  A name that is no key of the registry but
    names a member of [Object.prototype] passes the check
    [if (!templateConfig)]: when no file of that name exists the compositor
    falls back and returns the resized source as a success. *)
Theorem inherited_name_takes_fallback url key e bytes resized :
  key ∈ Object_prototype_keys ->
  fs_access W (template_path W key) = Some e ->
  fetch_success W url bytes ->
  toBuffer_result (resize 1024 1024 cover_center (sharp bytes)) = inr resized ->
  TEMPLATES !! key = None /\
  outcome (compositeOnTemplate W
             {| aiGeneratedImageUrl := url; templateName := Some key |}) =
  Returned (success resized).
Proof.
  intros Hkey Hacc Hdl Hrun.
  split; [ apply Object_prototype_keys_not_own; assumption | ].
  assert (Hname : js_or (Some key) "template1" = key).
  { unfold Object_prototype_keys in Hkey.
    repeat (apply elem_of_cons in Hkey as [-> | Hkey]; [ reflexivity | ]).
    apply elem_of_nil in Hkey. contradiction. }
  destruct (run_fallback W {| aiGeneratedImageUrl := url; templateName := Some key |}
              e bytes) as [Hout _]; cbn [templateName aiGeneratedImageUrl];
    rewrite ?Hname; auto.
  { rewrite (get_property_inherited _ Hkey). reflexivity. }
  rewrite Hout, Hrun. reflexivity.
Qed.

(** C4 (amended).  When the template is registered, its file exists, reads
    and decodes, the source downloads and decodes, and the face slot is no
    larger than the template, the result is a success whose payload is a PNG
    with exactly the template's dimensions.  Every pixel outside the face
    slot is the template's pixel; every pixel inside it is the source-over
    blend of the resized face (an image of exactly the slot's size, placed
    with its top-left corner at [(x, y)]) onto the template's pixel. *)
Theorem composite_frame options config bytes format image templateBuffer
    tformat timage :
  SharpContract ->
  TEMPLATES !! js_or (templateName options) "template1" = Some config ->
  fs_access W (template_path W (js_or (templateName options) "template1")) = None ->
  fetch_success W (aiGeneratedImageUrl options) bytes ->
  decode_image bytes = Some (format, image) ->
  fs_readFile W (template_path W (js_or (templateName options) "template1")) =
    inr templateBuffer ->
  decode_image templateBuffer = Some (tformat, timage) ->
  width (facePosition config) <= img_width timage ->
  height (facePosition config) <= img_height timage ->
  exists composited decoded resizedFace fformat face,
    outcome (compositeOnTemplate W options) = Returned (success composited) /\
    decode_image composited = Some (PNG, decoded) /\
    img_width decoded = img_width timage /\
    img_height decoded = img_height timage /\
    toBuffer_result
      (resize (width (facePosition config)) (height (facePosition config))
         cover_center (sharp bytes)) = inr resizedFace /\
    decode_image resizedFace = Some (fformat, face) /\
    img_width face = width (facePosition config) /\
    img_height face = height (facePosition config) /\
    forall px py,
      0 <= px < img_width timage -> 0 <= py < img_height timage ->
      (~ in_slot (facePosition config) px py ->
       pixel decoded px py = pixel timage px py) /\
      (in_slot (facePosition config) px py ->
       pixel decoded px py =
       blend_pixel Over
         (pixel face (px - x (facePosition config)) (py - y (facePosition config)))
         (pixel timage px py)).
Proof.
  intros contract Hreg Hacc Hdl Hdecode Hread Htemplate Hw Hh.
  destruct (TEMPLATES_slot _ _ Hreg) as (_ & _ & Hwpos & Hhpos).
  set (slot := facePosition config) in *.
  destruct (resize_cover_toBuffer contract bytes format image
              (width slot) (height slot) Hdecode Hwpos Hhpos)
    as (resizedFace & face & Hface & Hfdecode & Hfw & Hfh).
  destruct (composite_toBuffer contract templateBuffer tformat timage slot
              resizedFace _ face Htemplate Hfdecode)
    as (composited & decoded & Hrun & Hback & Hsw & Hsh & Hpixels);
    [ lia | lia | ].
  exists composited, decoded, resizedFace, (output_format None format), face.
  rewrite (run_composite W options config bytes resizedFace templateBuffer)
    by assumption.
  fold slot. rewrite Hrun. cbn in Hsw, Hsh.
  repeat (split; [ solve [ auto ] | ]).
  intros px py Hpx Hpy.
  rewrite <- (Hpixels px py) by assumption. cbn.
  rewrite Hfw, Hfh.
  destruct ((x slot <=? px) && (px <? x slot + width slot) &&
            (y slot <=? py) && (py <? y slot + height slot)) eqn:Hin.
  - apply in_slot_test in Hin. split; [ contradiction | reflexivity ].
  - split; [ reflexivity | ]. intros Hslot.
    apply in_slot_test in Hslot. congruence.
Qed.

(** C6.  Whenever the compositor fetches the source and the fetch fails
    (a network error, a response that is not [ok], or a body that cannot be
    read), the result is a failure whose message is the message of that
    failure; the source is fetched exactly once, and no image processing
    and no template read takes place. *)
Theorem download_failure_propagation options failed :
  fetch_failure W (aiGeneratedImageUrl options) failed ->
  In (Fetch (aiGeneratedImageUrl options)) (trace (compositeOnTemplate W options)) ->
  outcome (compositeOnTemplate W options) = Returned (failure (message_of failed)) /\
  List.filter is_fetch (trace (compositeOnTemplate W options)) =
    [Fetch (aiGeneratedImageUrl options)] /\
  List.filter is_processing (trace (compositeOnTemplate W options)) = [].
Proof.
  intros Hfail Hfetched.
  destruct (truthy (get_property TEMPLATES
                      (js_or (templateName options) "template1"))) eqn:Htruthy.
  - apply run_download_failure; assumption.
  - exfalso.
    destruct (get_property TEMPLATES (js_or (templateName options) "template1"))
      eqn:Hprop; try discriminate.
    rewrite (run_unknown W options Hprop) in Hfetched.
    destruct Hfetched as [ [=] | [] ].
Qed.

(** C7.  [compositeOnTemplate] always returns and never throws.  What it
    returns is either a success (a data URI and no error) or a failure (the
    empty payload and a message), never both.  Every internal failure (an
    unknown name, a failed download, a rejected resize, a template without
    a face position, an unreadable template, a rejected composite) is
    returned as the failure that carries the message of its error, and a
    failure is only ever returned for one of them.  The message is not
    empty as long as the errors of the file system and of the network carry
    one. *)
Theorem error_translation_boundary options :
  exists result,
    outcome (compositeOnTemplate W options) = Returned result /\
    ((exists bytes, result = success bytes) \/
     (exists message,
        result = failure message /\ (errors_described W -> message <> ""))) /\
    (forall e, internal_failure W options e -> result = failure (message_of e)) /\
    (forall message,
        result = failure message ->
        exists e, internal_failure W options e /\ message = message_of e) /\
    (base64Image result = Empty <-> error result <> None).
Proof.
  destruct (outcome_cases W options) as [ [bytes Hout] | (e & He & Hout) ].
  - exists (success bytes). split; [ exact Hout | ].
    split; [ left; eauto | ].
    split.
    { intros e He. apply internal_failure_outcome in He.
      rewrite Hout in He. discriminate He. }
    split; [ discriminate | ].
    cbn. split; [ discriminate | intros Hno; contradiction ].
  - exists (failure (message_of e)). split; [ exact Hout | ].
    split.
    { right. eexists. split; [ reflexivity | ].
      intros HW. eapply internal_failure_described; eassumption. }
    split.
    { intros e' He'. apply internal_failure_outcome in He'.
      rewrite Hout in He'. injection He' as ->. reflexivity. }
    split.
    { intros message [= <-]. eauto. }
    cbn. split; [ discriminate | reflexivity ].
Qed.

(** C8.  An absent [templateName] and an empty one each give exactly the
    run (the same effects and the same result) of [templateName] equal to
    ["template1"]. *)
Theorem default_template_equivalence url :
  compositeOnTemplate W {| aiGeneratedImageUrl := url; templateName := None |} =
  compositeOnTemplate W
    {| aiGeneratedImageUrl := url; templateName := Some "template1" |} /\
  compositeOnTemplate W {| aiGeneratedImageUrl := url; templateName := Some "" |} =
  compositeOnTemplate W
    {| aiGeneratedImageUrl := url; templateName := Some "template1" |}.
Proof. split; reflexivity. Qed.

(** C9 (what the code does).  [file.replace('.png', '')] removes the first
    [.png] of a name, not its suffix: a directory entry
    [cover.png.old.png] is listed as [cover.old.png], for which no file
    [cover.old.png.png] exists, and not as [cover.png.old]. *)
Theorem listing_strips_first_occurrence :
  fs_readdir W (path_join W [cwd W; "public"; "templates"]) =
    inr ["cover.png.old.png"] ->
  outcome (getAvailableTemplates W) = Returned ["cover.old.png"].
Proof.
  intros Hdir. unfold getAvailableTemplates. rewrite Hdir. reflexivity.
Qed.

(** C10 (what the code does).  The registry has exactly the two keys
    [template1] and [template2], yet the lookup [TEMPLATES[templateName]]
    also yields a truthy value for [constructor]: the compositor does not
    stop at the registry check, it goes on to probe the file system. *)
Theorem registry_check_admits_constructor url :
  dom TEMPLATES = ({[ "template1"; "template2" ]} : gset string) /\
  TEMPLATES !! "constructor" = None /\
  truthy (get_property TEMPLATES "constructor") = true /\
  In (FsAccess (template_path W "constructor"))
    (trace (compositeOnTemplate W
              {| aiGeneratedImageUrl := url; templateName := Some "constructor" |})).
Proof.
  split; [ exact TEMPLATES_keys | ].
  split; [ reflexivity | ]. split; [ reflexivity | ].
  destruct (run_probes_file W
              {| aiGeneratedImageUrl := url; templateName := Some "constructor" |})
    as [rest ->]; [ reflexivity | ].
  right. left. reflexivity.
Qed.
End Specification.

(** * Further properties of the compositor *)

Section Further.
Context {L : ImageLibrary}.
Variable W : World.

(** A name that is neither a key of the registry nor a member of
    [Object.prototype] is a hard error: the call fails with
    [Template <name> not found] and an empty payload, and it does nothing
    else: no file access, no download, no image processing. *)
Lemma unknown_template_is_hard_error options :
  TEMPLATES !! js_or (templateName options) "template1" = None ->
  js_or (templateName options) "template1" ∉ Object_prototype_keys ->
  compositeOnTemplate W options =
  ([ConsoleError
      [Str "Image Compositor Error:";
       Err (JsError ("Template " +:+ js_or (templateName options) "template1"
                       +:+ " not found"))]],
   Returned (failure ("Template " +:+ js_or (templateName options) "template1"
                        +:+ " not found"))).
Proof.
  intros Hown Hproto. apply run_unknown. apply get_property_undefined. auto.
Qed.

(** In fallback mode a decodable source always gives a success whose image
    is exactly 1024 by 1024; it is a PNG when the source is a PNG (or an
    SVG). *)
Lemma fallback_is_1024_square options config e bytes format image :
  SharpContract ->
  TEMPLATES !! js_or (templateName options) "template1" = Some config ->
  fs_access W (template_path W (js_or (templateName options) "template1")) = Some e ->
  fetch_success W (aiGeneratedImageUrl options) bytes ->
  decode_image bytes = Some (format, image) ->
  exists resized decoded,
    outcome (compositeOnTemplate W options) = Returned (success resized) /\
    decode_image resized = Some (output_format None format, decoded) /\
    img_width decoded = 1024 /\ img_height decoded = 1024 /\
    (format = PNG \/ format = SVG -> output_format None format = PNG).
Proof.
  intros contract Hreg Hacc Hdl Hdecode.
  destruct (resize_cover_toBuffer contract bytes format image 1024 1024 Hdecode)
    as (resized & decoded & Hrun & Hback & Hw & Hh); [ lia | lia | ].
  exists resized, decoded.
  destruct (run_fallback W options e bytes) as [Hout _]; auto.
  { rewrite (get_property_own _ _ Hreg). reflexivity. }
  rewrite Hout, Hrun. repeat split; auto.
  intros [-> | ->]; reflexivity.
Qed.

(** Every resize the compositor asks of [sharp] is a cover resize anchored
    at the center.  Its target is 1024 by 1024 exactly when the existence
    check of the template failed (the fallback), and the face slot of the
    requested template exactly when the check succeeded (the composite). *)
Lemma every_resize_is_cover_center options s w h o :
  In (SharpToBuffer s) (trace (compositeOnTemplate W options)) ->
  sharp_resize s = Some (w, h, o) ->
  o = {| fit := Cover; position := Center |} /\
  (((exists denied,
       fs_access W (template_path W (js_or (templateName options) "template1")) =
         Some denied) /\
    w = 1024 /\ h = 1024) \/
   (fs_access W (template_path W (js_or (templateName options) "template1")) =
      None /\
    exists config,
      TEMPLATES !! js_or (templateName options) "template1" = Some config /\
      w = width (facePosition config) /\ h = height (facePosition config))).
Proof.
  intros Hin Hresize.
  destruct (resize_in_run W options s w h o Hin Hresize)
    as (bytes & _ & _ & -> & Hpath).
  split; [ reflexivity | exact Hpath ].
Qed.

(** [getAvailableTemplates] never throws: it lists the entries of the
    templates directory that end in [.png], each with its first [.png]
    removed, and an unreadable directory gives the empty list. *)
Lemma getAvailableTemplates_never_throws :
  outcome (getAvailableTemplates W) =
  Returned
    (match fs_readdir W (path_join W [cwd W; "public"; "templates"]) with
     | inr files =>
         List.map (replace ".png" "")
           (List.filter (fun file => endsWith file ".png") files)
     | inl _ => []
     end).
Proof.
  unfold getAvailableTemplates, perform.
  destruct (fs_readdir W _); reflexivity.
Qed.

(** A templates directory that holds exactly the files [stem.png] of stems
    without a [.png] of their own is listed as exactly these stems. *)
Lemma listing_of_plain_names stems :
  Forall (fun stem => ~ occurs ".png" stem) stems ->
  fs_readdir W (path_join W [cwd W; "public"; "templates"]) =
    inr (List.map (fun stem => stem +:+ ".png") stems) ->
  outcome (getAvailableTemplates W) = Returned stems.
Proof.
  intros Hplain Hdir. rewrite getAvailableTemplates_never_throws, Hdir.
  clear Hdir. f_equal.
  induction Hplain as [ | stem stems Hstem _ IH ]; [ reflexivity | ].
  cbn [List.map List.filter]. rewrite endsWith_append.
  cbn [List.map]. rewrite (replace_strips_suffix stem Hstem), IH. reflexivity.
Qed.

(** The defaulting of the [POST] handler changes nothing: the compositor
    applies the same default itself. *)
Lemma POST_default_is_redundant url template :
  compositeOnTemplate W (POST_composite_options url template) =
  compositeOnTemplate W {| aiGeneratedImageUrl := url; templateName := template |}.
Proof.
  destruct template as [ [ | c rest ] | ]; reflexivity.
Qed.
End Further.

(** * The properties on concrete deployments *)

Lemma studio_world_described : errors_described studio_world.
Proof.
  constructor.
  - intros path e. cbn. destruct (String.eqb _ path); [ discriminate | ].
    intros [= <-]. discriminate.
  - intros url e. cbn. destruct (String.eqb url _); [ discriminate | ].
    intros [= <-]. discriminate.
  - intros url response e. cbn. destruct (String.eqb url _); [ | discriminate ].
    intros [= <-]. discriminate.
Qed.

(** C1 at a concrete input: [template1] without its file and a JPEG source
    give a 1024 by 1024 JPEG under the [image/png] label. *)
Lemma fallback_keeps_source_format_witness :
  exists resized decoded,
    outcome (compositeOnTemplate (bare_world jpeg_source) (request (Some "template1"))) =
      Returned (success resized) /\
    decode_image resized = Some (JPEG, decoded) /\
    img_width decoded = 1024 /\ img_height decoded = 1024.
Proof.
  eapply (fallback_keeps_source_format (bare_world jpeg_source)
            (request (Some "template1"))).
  - exact reference_contract.
  - reflexivity.
  - reflexivity.
  - eexists. repeat split; reflexivity.
  - reflexivity.
  - discriminate.
Defined.



(** C3 at a concrete input: [constructor] is no template, and the call
    succeeds. *)
Lemma inherited_name_takes_fallback_witness :
  TEMPLATES !! "constructor" = None /\
  outcome (compositeOnTemplate (bare_world jpeg_source) (request (Some "constructor"))) =
  Returned (success
              (ImageFile JPEG
                 (reference_resample cover_center 1024 1024 (solid 2000 1000 black)))).
Proof.
  eapply (inherited_name_takes_fallback (bare_world jpeg_source) served_url
            "constructor" _ jpeg_source).
  - apply (bool_decide_unpack _). vm_compute. exact I.
  - reflexivity.
  - eexists. repeat split; reflexivity.
  - reflexivity.
Defined.

(** C4: a white face drawn onto a white template changes no pixel, inside
    the face slot or outside of it. *)
Lemma white_face_on_white_template :
  fs_readFile blank_world (template_path blank_world "template1") =
    inr (ImageFile PNG (solid 1024 1024 white)) /\
  exists composited decoded,
    outcome (compositeOnTemplate blank_world (request (Some "template1"))) =
      Returned (success composited) /\
    decode_image composited = Some (PNG, decoded) /\
    forall px py, pixel decoded px py = pixel (solid 1024 1024 white) px py.
Proof.
  split; [ reflexivity | ].
  eexists _, _. split; [ reflexivity | ]. split; [ reflexivity | ].
  intros px py. cbn.
  destruct (_ && _); reflexivity.
Qed.

(** C4 (amended) at a concrete input: a black face on the white
    [template1]. *)
Lemma composite_frame_witness :
  exists composited decoded,
    outcome (compositeOnTemplate studio_world (request (Some "template1"))) =
      Returned (success composited) /\
    decode_image composited = Some (PNG, decoded) /\
    img_width decoded = 1024 /\ img_height decoded = 1024 /\
    pixel decoded 299 150 = white /\ pixel decoded 300 150 = black /\
    pixel decoded 699 549 = black /\ pixel decoded 700 549 = white.
Proof.
  destruct (composite_frame studio_world (request (Some "template1"))
              {| name := "template1";
                 facePosition := {| x := 300; y := 150; width := 400; height := 400 |} |}
              jpeg_source JPEG (solid 2000 1000 black)
              (ImageFile PNG (solid 1024 1024 white)) PNG (solid 1024 1024 white))
    as (composited & decoded & resizedFace & fformat & face & Hout & Hdecode & Hw & Hh
        & Hface & Hfdecode & _ & _ & Hpixels).
  - exact reference_contract.
  - reflexivity.
  - reflexivity.
  - eexists. repeat split; reflexivity.
  - reflexivity.
  - reflexivity.
  - reflexivity.
  - cbn. lia.
  - cbn. lia.
  - exists composited, decoded.
    injection Hface as <-. injection Hfdecode as _ <-.
    repeat (split; [ assumption | ]).
    cbn in Hpixels. unfold in_slot in Hpixels. cbn in Hpixels.
    split; [ apply (Hpixels 299 150); lia | ].
    split; [ apply (Hpixels 300 150); lia | ].
    split; [ apply (Hpixels 699 549); lia | ].
    apply (Hpixels 700 549); lia.
Defined.

(** C6 at a concrete input: the source answers [404 Not Found]. *)
Lemma download_failure_propagation_witness :
  outcome (compositeOnTemplate gone_world (request (Some "template1"))) =
    Returned (failure "Failed to download image: Not Found") /\
  List.filter is_fetch (trace (compositeOnTemplate gone_world (request (Some "template1")))) =
    [Fetch served_url] /\
  List.filter is_processing
    (trace (compositeOnTemplate gone_world (request (Some "template1")))) = [].
Proof.
  apply (download_failure_propagation gone_world (request (Some "template1"))
           (JsError "Failed to download image: Not Found")).
  - exact (bad_status gone_world served_url not_found eq_refl eq_refl).
  - apply (List.filter_In is_fetch).
    rewrite (proj1 (proj2 (run_download_failure gone_world
                             (request (Some "template1")) _ eq_refl
                             (bad_status gone_world served_url not_found
                                eq_refl eq_refl)))).
    left. reflexivity.
Defined.

(** C7 at a concrete input: a download answered with [404 Not Found] is an
    internal failure, and the call returns the failure with its message. *)
Lemma error_translation_boundary_witness :
  internal_failure gone_world (request (Some "template1"))
    (JsError "Failed to download image: Not Found") /\
  outcome (compositeOnTemplate gone_world (request (Some "template1"))) =
    Returned (failure "Failed to download image: Not Found").
Proof.
  assert (Hfailure : internal_failure gone_world (request (Some "template1"))
                       (JsError "Failed to download image: Not Found")).
  { apply download_failed.
    - unfold requested. cbn.
      rewrite (get_property_own "template1" _ TEMPLATES_template1). discriminate.
    - exact (bad_status gone_world served_url not_found eq_refl eq_refl). }
  split; [ exact Hfailure | ].
  destruct (error_translation_boundary gone_world (request (Some "template1")))
    as (result & Hout & _ & Htranslated & _).
  rewrite Hout, (Htranslated _ Hfailure). reflexivity.
Defined.

(** C9 at a concrete input. *)
Lemma listing_strips_first_occurrence_witness :
  outcome (getAvailableTemplates backup_world) = Returned ["cover.old.png"].
Proof.
  apply (listing_strips_first_occurrence backup_world). reflexivity.
Defined.

(** An unknown name at a concrete input. *)
Lemma unknown_template_is_hard_error_witness :
  compositeOnTemplate studio_world (request (Some "does-not-exist")) =
  ([ConsoleError
      [Str "Image Compositor Error:";
       Err (JsError "Template does-not-exist not found")]],
   Returned (failure "Template does-not-exist not found")).
Proof.
  apply (unknown_template_is_hard_error studio_world
           (request (Some "does-not-exist"))).
  - reflexivity.
  - apply (proj1 (bool_decide_eq_false _)). reflexivity.
Defined.

(** The fallback at a concrete input whose source is a PNG. *)
Lemma fallback_is_1024_square_witness :
  exists resized decoded,
    outcome (compositeOnTemplate
               (bare_world (ImageFile PNG (solid 640 480 black)))
               (request (Some "template2"))) = Returned (success resized) /\
    decode_image resized = Some (PNG, decoded) /\
    img_width decoded = 1024 /\ img_height decoded = 1024.
Proof.
  destruct (fallback_is_1024_square
              (bare_world (ImageFile PNG (solid 640 480 black)))
              (request (Some "template2"))
              {| name := "template2";
                 facePosition := {| x := 250; y := 100; width := 500; height := 500 |} |}
              (ENOENT "/app/public/templates/template2.png")
              (ImageFile PNG (solid 640 480 black)) PNG (solid 640 480 black))
    as (resized & decoded & Hout & Hdecode & Hw & Hh & _).
  - exact reference_contract.
  - reflexivity.
  - reflexivity.
  - eexists. repeat split; reflexivity.
  - reflexivity.
  - exists resized, decoded. auto.
Defined.

Lemma studio_resize_in_run :
  In (SharpToBuffer (resize 400 400 cover_center (sharp jpeg_source)))
    (trace (compositeOnTemplate studio_world (request (Some "template1")))).
Proof.
  apply (List.filter_In is_processing).
  destruct (run_composite_path studio_world (request (Some "template1"))
              {| name := "template1";
                 facePosition := {| x := 300; y := 150; width := 400; height := 400 |} |}
              jpeg_source) as [_ Htrace].
  - apply get_property_own. reflexivity.
  - reflexivity.
  - eexists. repeat split; reflexivity.
  - cbv zeta in Htrace. rewrite Htrace. left. reflexivity.
Qed.

(** The resize of the composite at a concrete input: [template1] is present,
    and the source is resized to its 400 by 400 face slot. *)
Lemma every_resize_is_cover_center_witness :
  In (SharpToBuffer (resize 400 400 cover_center (sharp jpeg_source)))
    (trace (compositeOnTemplate studio_world (request (Some "template1")))) /\
  cover_center = {| fit := Cover; position := Center |} /\
  (((exists denied,
       fs_access studio_world (template_path studio_world "template1") =
         Some denied) /\
    400 = 1024 /\ 400 = 1024) \/
   (fs_access studio_world (template_path studio_world "template1") = None /\
    exists config,
      TEMPLATES !! "template1" = Some config /\
      400 = width (facePosition config) /\ 400 = height (facePosition config))).
Proof.
  split; [ exact studio_resize_in_run | ].
  exact (every_resize_is_cover_center studio_world (request (Some "template1"))
           (resize 400 400 cover_center (sharp jpeg_source))
           400 400 cover_center studio_resize_in_run eq_refl).
Defined.

Ltac no_occurrence :=
  let before := fresh "before" in
  let after := fresh "after" in
  let H := fresh "H" in
  intros (before & after & H);
  repeat (destruct before as [ | ? before ];
          [ discriminate H | rewrite append_cons in H; injection H as _ H ]);
  destruct before; discriminate H.

(** The listing at a concrete input: both templates present. *)
Lemma listing_of_plain_names_witness :
  outcome (getAvailableTemplates full_world) = Returned ["template1"; "template2"].
Proof.
  apply (listing_of_plain_names full_world ["template1"; "template2"]).
  - repeat constructor; no_occurrence.
  - reflexivity.
Defined.

(** * The callers: the AI service, the route handler and the page *)

Arguments compositeOnTemplate : simpl never.
Arguments AiService.personalizeImage : simpl never.
Arguments AiService.createAIService : simpl never.
Arguments Route.includes : simpl never.
Arguments POST_composite_options : simpl never.
Arguments Route.exceeds : simpl never.

Section ServerRuns.
Context {L : ImageLibrary}.
Variable S : Server.

(** The compositor always returns, a success or a failure. *)
Lemma composite_result_shape W options :
  exists result,
    outcome (compositeOnTemplate W options) = Returned result /\
    ((exists bytes, result = success bytes) \/
     (exists message, result = failure message)).
Proof.
  assert (Hfail : forall message,
             exists result : CompositeResult,
               Returned (failure message) = Returned result /\
               ((exists bytes, result = success bytes) \/
                (exists message', result = failure message'))).
  { intros message. eexists. split; [ reflexivity | right; eexists; reflexivity ]. }
  destruct (get_property TEMPLATES (js_or (templateName options) "template1"))
    as [config | key | ] eqn:Hprop.
  3: { rewrite (run_unknown W options Hprop). apply Hfail. }
  all: assert (Htruthy : truthy (get_property TEMPLATES
                            (js_or (templateName options) "template1")) = true)
         by (rewrite Hprop; reflexivity).
  all: destruct (downloadImage_cases W (aiGeneratedImageUrl options))
         as [ [bytes Hdl] | [failed Hfailed] ].
  2, 4: destruct (run_download_failure W options failed Htruthy Hfailed) as [-> _];
    apply Hfail.
  all: destruct (fs_access W (template_path W
                   (js_or (templateName options) "template1"))) as [e | ] eqn:Hacc.
  1, 3: destruct (run_fallback W options e bytes Htruthy Hacc Hdl) as [-> _];
    destruct (toBuffer_result _) as [rejected | resized];
    [ apply Hfail | succeeded ].
  - unfold compositeOnTemplate. rewrite Hprop. cbn. rewrite Hacc. cbn.
    rewrite (downloadImage_success _ _ _ Hdl). cbn.
    destruct (toBuffer_result (resize _ _ _ _)) as [rejected | resizedFace]; cbn.
    { apply Hfail. }
    destruct (fs_readFile W _) as [unread | templateBuffer]; cbn.
    { apply Hfail. }
    destruct (toBuffer_result (png _)) as [rejected | composited]; cbn.
    { apply Hfail. }
    succeeded.
  - unfold compositeOnTemplate. rewrite Hprop. cbn. rewrite Hacc. cbn.
    rewrite (downloadImage_success _ _ _ Hdl). cbn. apply Hfail.
Qed.

(** The run of [personalizeImage], by what the model host answers. *)
Lemma personalizeImage_run this options :
  AiService.personalizeImage S this options =
  let call :=
    ReplicateRun (AiService.auth this) AiService.model
      (AiService.model_input options) in
  let log := ServerLog [Txt "Calling Replicate API for image personalization..."] in
  match replicate_run S (AiService.auth this) AiService.model
          (AiService.model_input options) with
  | inl failed =>
      ([log; call; ServerError [Txt "AI Service Error:"; Caught failed]],
       Returned {| AiService.imageUrl := "";
                   AiService.error := Some (message_of failed) |})
  | inr output =>
      if Replicate.no_output output
      then ([log; call;
             ServerError [Txt "AI Service Error:";
                          Caught (JsError "No output received from AI model")]],
            Returned {| AiService.imageUrl := "";
                        AiService.error := Some "No output received from AI model" |})
      else ([log; call;
             ServerLog [Txt "AI personalization successful:";
                        Opt (Replicate.first_output output)]],
            Returned {| AiService.imageUrl :=
                          default "" (Replicate.first_output output);
                        AiService.error := None |})
  end.
Proof.
  unfold AiService.personalizeImage, effect.
  destruct (replicate_run S _ _ _) as [failed | output]; [ reflexivity | ].
  cbn. destruct (Replicate.no_output output); reflexivity.
Qed.
End ServerRuns.

Section CompositorEffects.
Context {L : ImageLibrary}.
Variable W : World.

Lemma downloadImage_io url :
  List.filter is_io (trace (downloadImage W url)) = [Fetch url].
Proof.
  unfold downloadImage, perform.
  destruct (fetch W url) as [failed | response]; cbn; [ reflexivity | ].
  destruct (ok response); cbn; [ | reflexivity ].
  destruct (arrayBuffer response); reflexivity.
Qed.

(** [downloadImage] fetches once.  It returns the bytes of the body of an
    [ok] response; it throws what [fetch] or the body threw, unchanged, and
    [Failed to download image: <statusText>] for a response that is not
    [ok], whose body it never reads. *)
Theorem downloadImage_outcomes url :
  (forall bytes,
      fetch_success W url bytes -> outcome (downloadImage W url) = Returned bytes) /\
  (forall failed,
      fetch_failure W url failed -> outcome (downloadImage W url) = Threw failed) /\
  List.filter is_fetch (trace (downloadImage W url)) = [Fetch url] /\
  (forall response,
      fetch W url = inr response -> ok response = false ->
      outcome (downloadImage W url) =
        Threw (JsError ("Failed to download image: " +:+ statusText response)) /\
      ~ In (ArrayBuffer url) (trace (downloadImage W url))).
Proof.
  split; [ | split; [ | split ] ].
  - intros bytes Hok. rewrite (downloadImage_success W url bytes Hok). reflexivity.
  - intros failed Hfailed.
    destruct (downloadImage_failure W url failed Hfailed) as (rest & -> & _).
    reflexivity.
  - unfold downloadImage, perform.
    destruct (fetch W url) as [failed | response]; cbn; [ reflexivity | ].
    destruct (ok response); cbn; [ | reflexivity ].
    destruct (arrayBuffer response); reflexivity.
  - intros response Hfetch Hok. unfold downloadImage, perform.
    rewrite Hfetch. cbn. rewrite Hok. cbn. split; [ reflexivity | ].
    intros [ Hin | [ Hin | [ Hin | [] ] ] ]; discriminate Hin.
Qed.

End CompositorEffects.

Section AiServiceProperties.
Context {L : ImageLibrary}.
Variable S : Server.

(** [personalizeImage] never throws and calls the model exactly once, with
    no retry.  Its result either carries the first URL of a non-empty
    output and no error, or an error message and the empty URL. *)
Theorem personalizeImage_boundary this options :
  exists result,
    answer (AiService.personalizeImage S this options) = Returned result /\
    ((exists output,
        replicate_run S (AiService.auth this) AiService.model
          (AiService.model_input options) = inr output /\
        Replicate.no_output output = false /\
        Replicate.first_output output = Some (AiService.imageUrl result) /\
        AiService.error result = None) \/
     (exists message,
        result = {| AiService.imageUrl := ""; AiService.error := Some message |})) /\
    List.filter is_model_call (effects (AiService.personalizeImage S this options)) =
      [ReplicateRun (AiService.auth this) AiService.model
         (AiService.model_input options)].
Proof.
  rewrite personalizeImage_run. cbv zeta.
  destruct (replicate_run S _ _ _) as [failed | output] eqn:Hrun.
  - eexists. split; [ reflexivity | ]. split; [ | reflexivity ].
    right. eexists. reflexivity.
  - destruct (Replicate.no_output output) eqn:Hnone.
    + eexists. split; [ reflexivity | ]. split; [ | reflexivity ].
      right. eexists. reflexivity.
    + eexists. split; [ reflexivity | ]. split; [ | reflexivity ].
      left. exists output. repeat split; auto.
      destruct output as [ | url | [ | url rest ] ]; try discriminate; reflexivity.
Qed.

(** How the output of the model is read: nothing, the empty string and the
    empty list are the error [No output received from AI model]; a list
    gives its first URL, whatever follows it; and a list whose first URL is
    empty gives a result with neither a URL nor an error. *)
Theorem personalizeImage_reads_output this options output :
  replicate_run S (AiService.auth this) AiService.model
    (AiService.model_input options) = inr output ->
  answer (AiService.personalizeImage S this options) =
  Returned
    (match output with
     | Replicate.Nullish | Replicate.Text EmptyString | Replicate.Items [] =>
         {| AiService.imageUrl := "";
            AiService.error := Some "No output received from AI model" |}
     | Replicate.Text url | Replicate.Items (url :: _) =>
         {| AiService.imageUrl := url; AiService.error := None |}
     end).
Proof.
  intros Hrun. rewrite personalizeImage_run, Hrun. cbv zeta.
  destruct output as [ | [ | c url ] | [ | url rest ] ]; reflexivity.
Qed.
End AiServiceProperties.

Section RouteProperties.
Context {L : ImageLibrary}.
Variable S : Server.

Lemma includes_In types t :
  Route.includes types (Some t) = true <-> In t types.
Proof.
  unfold Route.includes. rewrite existsb_exists. split.
  - intros (u & Hin & Heq). apply String.eqb_eq in Heq. congruence.
  - intros Hin. exists t. split; [ assumption | apply String.eqb_refl ].
Qed.

(** The three checks of the route, in their order: a form is valid, or it
    is refused by the first check it fails. *)
Lemma validation_cases form :
  valid_upload form \/
  exists message,
    Route.POST S (inr form) =
    ([ServerLog [Txt "Received personalization request"]; FormDataRead],
     Returned {| Route.status := 400;
                 Route.body := Route.ErrorJson message None |}) /\
    ((Route.present (Route.form_image form) = false /\
      message = "No image file provided") \/
     (Route.present (Route.form_image form) = true /\
      Route.includes Route.ALLOWED_TYPES (Route.type_of (Route.form_image form)) = false /\
      message =
        "Invalid file type. Allowed types: image/jpeg, image/png, image/jpg, image/webp") \/
     (exists f,
        Route.form_image form = Route.FileField f /\
        In (file_type f) Route.ALLOWED_TYPES /\
        10485760 < file_size f /\
        message = "File too large. Maximum size: 10MB")).
Proof.
  unfold Route.POST, effect. cbn.
  destruct (Route.form_image form) as [ | [ | c value ] | f ] eqn:Hfield; cbn.
  - right. eexists. split; [ reflexivity | left; auto ].
  - right. eexists. split; [ reflexivity | left; auto ].
  - right. eexists. split; [ reflexivity | right; left; auto ].
  - destruct (Route.includes Route.ALLOWED_TYPES (Some (file_type f))) eqn:Htype; cbn.
    + unfold Route.exceeds.
      destruct (Route.MAX_FILE_SIZE <? file_size f) eqn:Hsize; cbn.
      * right. eexists. split; [ reflexivity | ]. right. right. exists f.
        apply includes_In in Htype. apply Z.ltb_lt in Hsize.
        repeat split; auto.
      * left. exists f.
        apply includes_In in Htype. apply Z.ltb_ge in Hsize. auto.
    + right. eexists. split; [ reflexivity | right; left; auto ].
Qed.

(** An upload that is not valid is answered with status 400 whatever the
    state of the server, and nothing happens but reading the form: no model
    call, no compositing.  The checks run in the order file, type, size, so
    a file of a wrong type is refused for its type even when it is also too
    large, and a text value in the [image] field is refused for its type. *)
Theorem POST_rejects_invalid_upload form :
  ~ valid_upload form ->
  exists message,
    Route.POST S (inr form) =
    ([ServerLog [Txt "Received personalization request"]; FormDataRead],
     Returned {| Route.status := 400;
                 Route.body := Route.ErrorJson message None |}) /\
    ((Route.present (Route.form_image form) = false /\
      message = "No image file provided") \/
     (Route.present (Route.form_image form) = true /\
      Route.includes Route.ALLOWED_TYPES (Route.type_of (Route.form_image form)) = false /\
      message =
        "Invalid file type. Allowed types: image/jpeg, image/png, image/jpg, image/webp") \/
     (exists f,
        Route.form_image form = Route.FileField f /\
        In (file_type f) Route.ALLOWED_TYPES /\
        10485760 < file_size f /\
        message = "File too large. Maximum size: 10MB")).
Proof.
  intros Hinvalid. destruct (validation_cases form) as [Hvalid | Hrefused].
  - contradiction.
  - exact Hrefused.
Qed.

Lemma createAIService_token token :
  token_is S token ->
  AiService.createAIService S = ([], Returned {| AiService.auth := token |}).
Proof.
  intros [Henv Hne]. unfold AiService.createAIService. rewrite Henv.
  destruct token; [ contradiction | reflexivity ].
Qed.

Lemma createAIService_missing :
  Route.truthy_text (REPLICATE_API_TOKEN S) = false ->
  AiService.createAIService S =
  ([], Threw (JsError
     "REPLICATE_API_TOKEN environment variable is not set. Please add it to your .env.local file. Get your token from: https://replicate.com/account/api-tokens")).
Proof.
  unfold AiService.createAIService.
  destruct (REPLICATE_API_TOKEN S) as [ [ | c token ] | ]; try discriminate;
    reflexivity.
Qed.

(** The run of a valid upload up to the creation of the service. *)
Ltac enter_valid Hfield Htype Hsize :=
  unfold Route.POST, effect; cbn; rewrite Hfield; cbn;
  rewrite (proj2 (includes_In _ _) Htype); cbn;
  unfold Route.exceeds;
  rewrite (proj2 (Z.ltb_ge _ _) Hsize); cbn.

(** Without a token every valid upload is answered with status 500 and the
    configuration message of [createAIService]; the model is not called and
    the compositor does not run.  (An invalid upload is still answered with
    400: validation comes first.) *)
Theorem POST_missing_token form :
  valid_upload form ->
  Route.truthy_text (REPLICATE_API_TOKEN S) = false ->
  exists details,
    answer (Route.POST S (inr form)) =
    Returned
      {| Route.status := 500;
         Route.body :=
           Route.ErrorJson
             "REPLICATE_API_TOKEN environment variable is not set. Please add it to your .env.local file. Get your token from: https://replicate.com/account/api-tokens"
             details |} /\
    List.filter is_model_call (effects (Route.POST S (inr form))) = [] /\
    List.filter is_compositing (effects (Route.POST S (inr form))) = [].
Proof.
  intros (f & Hfield & Htype & Hsize) Htoken.
  enter_valid Hfield Htype Hsize.
  rewrite (createAIService_missing Htoken). cbn.
  eexists. repeat split; reflexivity.
Qed.

Lemma filter_compositing_map (events : list Event) :
  List.filter is_compositing (List.map Compositing events) =
  List.map Compositing events.
Proof. induction events as [ | e events IH ]; cbn; [ | rewrite IH ]; reflexivity. Qed.

Lemma filter_model_call_map (events : list Event) :
  List.filter is_model_call (List.map Compositing events) = [].
Proof. induction events as [ | e events IH ]; cbn; auto. Qed.

(** When the service reports an error, or no URL, a valid upload is answered
    with status 500 carrying that error (or [Failed to generate personalized
    image] when there is none), and the compositor does not run: nothing is
    downloaded and no template is touched. *)
Theorem POST_model_failure_skips_compositor form f token result :
  Route.form_image form = Route.FileField f ->
  In (file_type f) Route.ALLOWED_TYPES ->
  file_size f <= Route.MAX_FILE_SIZE ->
  token_is S token ->
  answer (AiService.personalizeImage S {| AiService.auth := token |}
            (route_options f)) = Returned result ->
  Route.truthy_text (AiService.error result) ||
  negb (Route.truthy_text (Some (AiService.imageUrl result))) = true ->
  answer (Route.POST S (inr form)) =
  Returned
    {| Route.status := 500;
       Route.body :=
         Route.ErrorJson
           (js_or (AiService.error result) "Failed to generate personalized image")
           None |} /\
  List.filter is_compositing (effects (Route.POST S (inr form))) = [].
Proof.
  intros Hfield Htype Hsize Htoken Hresult Hfailed.
  enter_valid Hfield Htype Hsize.
  rewrite (createAIService_token _ Htoken). cbn.
  unfold route_options in Hresult. revert Hresult.
  rewrite personalizeImage_run. cbv zeta.
  destruct (replicate_run S _ _ _) as [failed | output];
    [ | destruct (Replicate.no_output output) ];
    intros [= <-]; cbn in Hfailed |- *; rewrite ?Hfailed; cbn; auto.
Qed.

Lemma js_or_default_twice template :
  js_or (Some (js_or template "template1")) "template1" =
  js_or template "template1".
Proof. destruct template as [ [ | c rest ] | ]; reflexivity. Qed.

(** When the service gives a URL, the answer to a valid upload is decided by
    the compositor, run once on that URL and on the [template] field (or
    [template1]): its success is status 200 with its data URI as [image],
    its failure is status 500 with its message. *)
Theorem POST_composite_outcome form f token url :
  Route.form_image form = Route.FileField f ->
  In (file_type f) Route.ALLOWED_TYPES ->
  file_size f <= Route.MAX_FILE_SIZE ->
  token_is S token ->
  answer (AiService.personalizeImage S {| AiService.auth := token |}
            (route_options f)) =
    Returned {| AiService.imageUrl := url; AiService.error := None |} ->
  url <> "" ->
  (forall bytes,
      outcome (compositeOnTemplate (world S)
                 (POST_composite_options url (Route.form_template form))) =
        Returned (success bytes) ->
      answer (Route.POST S (inr form)) =
      Returned
        {| Route.status := 200;
           Route.body :=
             Route.SuccessJson (Data {| mime := "image/png"; body := bytes |})
               "Image personalized successfully" |}) /\
  (forall message,
      outcome (compositeOnTemplate (world S)
                 (POST_composite_options url (Route.form_template form))) =
        Returned (failure message) ->
      answer (Route.POST S (inr form)) =
      Returned
        {| Route.status := 500;
           Route.body :=
             Route.ErrorJson (js_or (Some message) "Failed to composite image")
               None |}) /\
  List.filter is_compositing (effects (Route.POST S (inr form))) =
    List.map Compositing
      (trace (compositeOnTemplate (world S)
                (POST_composite_options url (Route.form_template form)))).
Proof.
  intros Hfield Htype Hsize Htoken Hresult Hurl.
  enter_valid Hfield Htype Hsize.
  rewrite (createAIService_token _ Htoken). cbn.
  unfold route_options in Hresult. revert Hresult.
  rewrite personalizeImage_run. cbv zeta.
  destruct (replicate_run S _ _ _) as [failed | output];
    [ | destruct (Replicate.no_output output) ];
    intros [= Hfirst]; cbn.
  rewrite Hfirst. clear Hfirst.
  destruct url as [ | c rest ]; [ contradiction | ].
  cbn. unfold compositing.
  destruct (composite_result_shape (world S)
              (POST_composite_options (String c rest) (Route.form_template form)))
    as (result & Hout & Hshape).
  destruct (compositeOnTemplate (world S) _) as [events out]. cbn in Hout |- *.
  subst out.
  destruct Hshape as [ [bytes ->] | [message ->] ]; unfold success, failure; cbn.
  - split; [ | split ].
    + intros bytes' [= ->]. reflexivity.
    + intros message' Hno. discriminate Hno.
    + rewrite !List.filter_app, filter_compositing_map. cbn.
      apply List.app_nil_r.
  - rewrite orb_true_r. cbn.
    split; [ | split ].
    + intros bytes' Hno. discriminate Hno.
    + intros message' [= ->]. reflexivity.
    + 
      rewrite !List.filter_app, filter_compositing_map. cbn.
      apply List.app_nil_r.
Qed.

(** A template name that the registry does not know (and that names no
    member of [Object.prototype]) is reported to the client as a server
    error: status 500 with [Template <name> not found], after the model was
    called, and without any download. *)
Theorem POST_unknown_template_is_500 form f token url :
  Route.form_image form = Route.FileField f ->
  In (file_type f) Route.ALLOWED_TYPES ->
  file_size f <= Route.MAX_FILE_SIZE ->
  token_is S token ->
  answer (AiService.personalizeImage S {| AiService.auth := token |}
            (route_options f)) =
    Returned {| AiService.imageUrl := url; AiService.error := None |} ->
  url <> "" ->
  TEMPLATES !! js_or (Route.form_template form) "template1" = None ->
  js_or (Route.form_template form) "template1" ∉ Object_prototype_keys ->
  answer (Route.POST S (inr form)) =
    Returned
      {| Route.status := 500;
         Route.body :=
           Route.ErrorJson
             ("Template " +:+ js_or (Route.form_template form) "template1" +:+
              " not found") None |} /\
  List.filter is_model_call (effects (Route.POST S (inr form))) =
    [ReplicateRun token AiService.model (AiService.model_input (route_options f))] /\
  List.filter is_compositing (effects (Route.POST S (inr form))) =
    [Compositing
       (ConsoleError
          [Str "Image Compositor Error:";
           Err (JsError ("Template " +:+ js_or (Route.form_template form) "template1"
                           +:+ " not found"))])].
Proof.
  intros Hfield Htype Hsize Htoken Hresult Hurl Hown Hproto.
  enter_valid Hfield Htype Hsize.
  rewrite (createAIService_token _ Htoken). cbn.
  unfold route_options in Hresult |- *. revert Hresult.
  rewrite personalizeImage_run. cbv zeta.
  destruct (replicate_run S _ _ _) as [failed | output];
    [ | destruct (Replicate.no_output output) ];
    intros [= Hfirst]; cbn.
  rewrite Hfirst. clear Hfirst.
  destruct url as [ | c rest ]; [ contradiction | ].
  cbn. unfold compositing.
  rewrite (run_unknown (world S)
             (POST_composite_options (String c rest) (Route.form_template form))).
  2: { unfold POST_composite_options. cbn [templateName].
       rewrite js_or_default_twice. apply get_property_undefined. auto. }
  unfold POST_composite_options. cbn [templateName trace outcome fst snd].
  rewrite js_or_default_twice. cbn.
  repeat split; reflexivity.
Qed.

Lemma production_hides_details (error : Thrown) :
  NODE_ENV S <> Some "development" ->
  (if Route.is_development (NODE_ENV S) then Some error else None) = None.
Proof.
  intros Hprod. unfold Route.is_development.
  destruct (NODE_ENV S) as [env | ]; [ | reflexivity ].
  destruct (String.eqb env "development") eqn:Heq; [ | reflexivity ].
  apply String.eqb_eq in Heq. congruence.
Qed.

(** The three answers of the route. *)
Ltac answers_200 :=
  eexists; split; [ reflexivity | left; split; [ reflexivity | eexists; reflexivity ] ].

Ltac answers_500 :=
  eexists; split;
  [ reflexivity
  | right; right; split;
    [ reflexivity
    | eexists _, _; split;
      [ reflexivity
      | first [ reflexivity | intros ?; apply production_hides_details; assumption ] ] ] ].

(** Every answer of [POST], by its status. *)
Lemma POST_answers request :
  exists response,
    answer (Route.POST S request) = Returned response /\
    ((Route.status response = 200 /\
      exists uri,
        Route.body response =
        Route.SuccessJson (Data uri) "Image personalized successfully") \/
     (Route.status response = 400 /\
      exists message form,
        Route.body response = Route.ErrorJson message None /\
        request = inr form /\ ~ valid_upload form) \/
     (Route.status response = 500 /\
      exists message details,
        Route.body response = Route.ErrorJson message details /\
        (NODE_ENV S <> Some "development" -> details = None))).
Proof.
  destruct request as [unreadable | form].
  { unfold Route.POST, effect. cbn. answers_500. }
  destruct (validation_cases form) as [(f & Hfield & Htype & Hsize) | Hrefused].
  2: { destruct Hrefused as (message & -> & Hwhy).
       eexists. split; [ reflexivity | ]. right. left. split; [ reflexivity | ].
       exists message, form. repeat split.
       intros (f & Hfield & Htype & Hsize). rewrite Hfield in Hwhy. cbn in Hwhy.
       destruct Hwhy as [ [Hno _] | [ (_ & Hno & _) | (f' & [= <-] & _ & Hno & _) ] ].
       - discriminate.
       - rewrite (proj2 (includes_In _ _) Htype) in Hno. discriminate.
       - unfold Route.MAX_FILE_SIZE in Hsize. lia. }
  enter_valid Hfield Htype Hsize.
  destruct (Route.truthy_text (REPLICATE_API_TOKEN S)) eqn:Htoken.
  2: { rewrite (createAIService_missing Htoken). cbn. answers_500. }
  assert (Hset : exists token, token_is S token).
  { destruct (REPLICATE_API_TOKEN S) as [ [ | c token ] | ] eqn:Henv;
      try discriminate.
    exists (String c token). split; [ assumption | discriminate ]. }
  destruct Hset as [token Hset].
  rewrite (createAIService_token _ Hset). cbn.
  rewrite personalizeImage_run. cbv zeta.
  destruct (replicate_run S _ _ _) as [failed | output]; cbn.
  { rewrite orb_true_r. cbn. answers_500. }
  destruct (Replicate.no_output output) eqn:Hnone; cbn.
  { answers_500. }
  destruct output as [ | [ | c url ] | [ | [ | c url ] rest ] ];
    try discriminate; cbn; try solve [ answers_500 ].
  all: unfold compositing;
    match goal with
    | |- context [compositeOnTemplate ?W ?o] =>
        destruct (composite_result_shape W o) as (result & Hout & Hshape);
        destruct (compositeOnTemplate W o) as [events out]
    end;
    cbn in Hout |- *; subst out;
    destruct Hshape as [ [bytes ->] | [message ->] ]; unfold success, failure; cbn;
    [ answers_200 | rewrite orb_true_r; cbn; answers_500 ].
Qed.

(** [POST] never throws: it always answers, with status 200, 400 or 500.
    Status 200 comes with a data URI as [image]; status 400 comes only for an
    upload that is not valid; every other failure is status 500; and outside
    development no answer carries [details]. *)
Theorem POST_always_responds request :
  exists response,
    answer (Route.POST S request) = Returned response /\
    ((Route.status response = 200 /\
      exists uri,
        Route.body response =
        Route.SuccessJson (Data uri) "Image personalized successfully") \/
     (Route.status response = 400 /\
      exists message form,
        Route.body response = Route.ErrorJson message None /\
        request = inr form /\ ~ valid_upload form) \/
     (Route.status response = 500 /\
      exists message details,
        Route.body response = Route.ErrorJson message details /\
        (NODE_ENV S <> Some "development" -> details = None))).
Proof. exact (POST_answers request). Qed.

(** Whatever the type of a valid upload (JPEG, PNG or WebP), the route sends
    it to the model exactly once, labelled [image/jpeg], with its bytes
    unchanged, the prompt of the route and a 1024 by 1024 target. *)
Theorem POST_labels_upload_as_jpeg form f token :
  Route.form_image form = Route.FileField f ->
  In (file_type f) Route.ALLOWED_TYPES ->
  file_size f <= Route.MAX_FILE_SIZE ->
  token_is S token ->
  exists input,
    List.filter is_model_call (effects (Route.POST S (inr form))) =
      [ReplicateRun token AiService.model input] /\
    Replicate.image input = {| mime := "image/jpeg"; body := file_bytes f |} /\
    Replicate.prompt input = Route.route_prompt /\
    Replicate.width input = 1024 /\ Replicate.height input = 1024.
Proof.
  intros Hfield Htype Hsize Htoken.
  exists (AiService.model_input (route_options f)).
  split; [ | repeat split ].
  enter_valid Hfield Htype Hsize.
  rewrite (createAIService_token _ Htoken). cbn.
  rewrite personalizeImage_run. cbv zeta. unfold route_options.
  destruct (replicate_run S _ _ _) as [failed | output]; cbn.
  { rewrite orb_true_r. reflexivity. }
  destruct (Replicate.no_output output) eqn:Hnone; cbn.
  { reflexivity. }
  destruct output as [ | [ | c url ] | [ | [ | c url ] rest ] ];
    try discriminate; cbn; try reflexivity.
  all: unfold compositing;
    match goal with
    | |- context [compositeOnTemplate ?W ?o] =>
        destruct (composite_result_shape W o) as (result & Hout & Hshape);
        destruct (compositeOnTemplate W o) as [events out]
    end;
    cbn in Hout |- *; subst out;
    destruct Hshape as [ [bytes ->] | [message ->] ]; unfold success, failure; cbn;
    rewrite ?orb_true_r; cbn;
    rewrite !List.filter_app, filter_model_call_map; reflexivity.
Qed.
End RouteProperties.

Section PageProperties.
Context {L : ImageLibrary}.
Variable B : Page.Browser.

Lemma page_accepts_test f :
  page_accepts f <->
  negb (String.prefix "image/" (file_type f)) = false /\
  (Page.MAX_SIZE <? file_size f) = false.
Proof.
  unfold page_accepts. rewrite negb_false_iff, Z.ltb_ge. tauto.
Qed.

(** A selection the page refuses (not an image type, or larger than 10 MB)
    changes nothing but the error message: the file selected before, its
    preview, the last result and the success flag all stay, so a following
    [Generate] posts the file selected before. *)
Theorem refused_selection_keeps_previous_file f state :
  ~ page_accepts f ->
  let next := snd (Page.handleFileSelect B (Some f) state) in
  Page.file next = Page.file state /\
  Page.previewUrl next = Page.previewUrl state /\
  Page.resultImage next = Page.resultImage state /\
  Page.success next = Page.success state /\
  Page.error next <> None /\
  forall previous,
    Page.file state = Some previous ->
    List.filter is_post (fst (Page.handleGenerate B next)) =
      [Page.PostPersonalize previous "template1"].
Proof.
  intros Hrefused. cbv zeta.
  assert (Hkept : exists message,
             snd (Page.handleFileSelect B (Some f) state) =
             {| Page.file := Page.file state;
                Page.previewUrl := Page.previewUrl state;
                Page.isProcessing := Page.isProcessing state;
                Page.error := Some message;
                Page.resultImage := Page.resultImage state;
                Page.success := Page.success state |}).
  { unfold Page.handleFileSelect.
    destruct (negb (String.prefix "image/" (file_type f))) eqn:Htype;
      [ eexists; reflexivity | ].
    destruct (Page.MAX_SIZE <? file_size f) eqn:Hsize;
      [ eexists; reflexivity | ].
    exfalso. apply Hrefused. apply page_accepts_test. auto. }
  destruct Hkept as [message ->]. cbn.
  repeat split; try discriminate.
  intros previous Hfile. unfold Page.handleGenerate. cbn. rewrite Hfile.
  unfold Page.request_image.
  destruct (Page.personalize B previous "template1") as [failed | response]; cbn;
    [ reflexivity | ].
  destruct (Page.reply_json response) as [unreadable | data]; cbn;
    [ reflexivity | ].
  destruct (Page.reply_ok response); reflexivity.
Qed.

(** The run of [handleGenerate] with a file selected. *)
Lemma handleGenerate_cases f state :
  Page.file state = Some f ->
  let next := snd (Page.handleGenerate B state) in
  Page.isProcessing next = false /\
  Page.file next = Some f /\
  Page.previewUrl next = Page.previewUrl state /\
  List.filter is_post (fst (Page.handleGenerate B state)) =
    [Page.PostPersonalize f "template1"] /\
  ((Page.success next = true /\ Page.error next = None /\
    exists response data,
      Page.personalize B f "template1" = inr response /\
      Page.reply_ok response = true /\
      Page.reply_json response = inr data /\
      Page.resultImage next = Page.data_image data) \/
   (Page.success next = false /\ Page.error next <> None /\
    Page.resultImage next = Page.resultImage state /\
    (forall response data,
        Page.personalize B f "template1" = inr response ->
        Page.reply_json response = inr data ->
        Page.reply_ok response = false /\
        Page.error next =
          Some (js_or (Page.data_error data) "Failed to personalize image")))).
Proof.
  intros Hfile. cbv zeta. unfold Page.handleGenerate, Page.request_image.
  rewrite Hfile.
  destruct (Page.personalize B f "template1") as [failed | response]; cbn.
  { repeat split; auto. right. repeat split; try discriminate. }
  destruct (Page.reply_json response) as [unreadable | data] eqn:Hjson; cbn.
  { repeat split; auto. right. repeat split; try discriminate.
    all: match goal with
         | Hsame : inr _ = inr _ |- _ => injection Hsame as <-; congruence
         end. }
  destruct (Page.reply_ok response) eqn:Hok; cbn.
  - repeat split; auto. left. repeat split. exists response, data. auto.
  - repeat split; auto. right. repeat split; try discriminate.
    all: match goal with
         | Hsame : inr _ = inr _, Hread : Page.reply_json _ = inr ?d |- _ =>
             injection Hsame as <-;
             assert (d = data) as -> by congruence
         end; auto.
Qed.

(** With a file selected, [handleGenerate] posts that file exactly once,
    always for [template1], and always comes to rest: processing ends, and
    either the reply was good (success, no error, the result is the image of
    the reply) or it was not (an error is shown, success is off, and the
    result of an earlier run stays on the page). *)
Theorem handleGenerate_settles f state :
  Page.file state = Some f ->
  let next := snd (Page.handleGenerate B state) in
  Page.isProcessing next = false /\
  Page.file next = Some f /\
  Page.previewUrl next = Page.previewUrl state /\
  List.filter is_post (fst (Page.handleGenerate B state)) =
    [Page.PostPersonalize f "template1"] /\
  ((Page.success next = true /\ Page.error next = None /\
    exists response data,
      Page.personalize B f "template1" = inr response /\
      Page.reply_ok response = true /\
      Page.reply_json response = inr data /\
      Page.resultImage next = Page.data_image data) \/
   (Page.success next = false /\ Page.error next <> None /\
    Page.resultImage next = Page.resultImage state /\
    (forall response data,
        Page.personalize B f "template1" = inr response ->
        Page.reply_json response = inr data ->
        Page.reply_ok response = false /\
        Page.error next =
          Some (js_or (Page.data_error data) "Failed to personalize image")))).
Proof. exact (handleGenerate_cases f state). Qed.

(** A [Generate] whose reply arrives before anything else happens is the
    handler run in one piece. *)
Lemma handleGenerate_in_two_steps f state :
  Page.file state = Some f ->
  snd (Page.handleGenerate B state) =
  Page.finish_generate (Page.personalize B f "template1")
    (Page.begin_generate state).
Proof.
  intros Hfile. unfold Page.handleGenerate, Page.finish_generate,
    Page.request_image, Page.read_reply, Page.begin_generate. rewrite Hfile.
  destruct (Page.personalize B f "template1") as [failed | response];
    [ reflexivity | ].
  destruct (Page.reply_json response) as [unreadable | data]; [ reflexivity | ].
  destruct (Page.reply_ok response); reflexivity.
Qed.

Lemma happen_paired h s : paired s -> paired (Page.happen B h s).
Proof.
  intros [Hpair Hbusy]. destruct s as [state pending]. cbn in Hpair, Hbusy.
  destruct h as [ [f | ] | | | n answer ]; cbn.
  - unfold Page.handleFileSelect.
    destruct (negb (String.prefix "image/" (file_type f)));
      [ split; assumption | ].
    destruct (Page.MAX_SIZE <? file_size f); [ split; assumption | ].
    split; cbn; [ split; discriminate | discriminate ].
  - split; assumption.
  - destruct (Page.clear_rendered state); [ | split; assumption ].
    split; cbn; [ tauto | discriminate ].
  - unfold Page.generate_disabled.
    destruct (Page.file state) as [f | ] eqn:Hfile;
      [ | split; cbn; rewrite ?Hfile; assumption ].
    destruct (Page.isProcessing state) eqn:Hspinner;
      [ split; cbn; rewrite ?Hfile, ?Hspinner; assumption | ].
    split; cbn; [ rewrite Hfile; assumption | ].
    intros _. destruct pending; discriminate.
  - destruct (pending !! n); [ | split; assumption ].
    unfold Page.finish_generate.
    destruct (Page.read_reply answer); split; cbn; solve [ assumption | discriminate ].
Qed.

(** Whatever happens to the page, in whatever order (files are selected,
    buttons are clicked, replies arrive late, early or never), a file is
    selected exactly when it has a preview, and the spinner is on only while
    a request is not answered yet. *)
Theorem page_stays_paired happenings :
  paired (Page.unfold_session B happenings Page.opened).
Proof.
  unfold Page.unfold_session.
  assert (Hall : forall s, paired s ->
                   paired (fold_left (fun s h => Page.happen B h s) happenings s)).
  { induction happenings as [ | h happenings IH ]; intros s Hs; cbn.
    - assumption.
    - apply IH. apply happen_paired. assumption. }
  apply Hall. split; cbn; [ tauto | discriminate ].
Qed.

(** A reply outlives the photo it was asked for.  When [Clear] is clicked
    while the request is in flight, the reply still lands: the page then
    shows success and the result with no file selected.  When another photo
    is chosen meanwhile, the result of the first photo is shown as the
    result beside the second. *)
Theorem reply_outlives_its_photo f state c url reply data :
  Page.file state = Some f ->
  Page.previewUrl state = Some (String c url) ->
  Page.isProcessing state = false ->
  Page.reply_ok reply = true ->
  Page.reply_json reply = inr data ->
  let idle := {| Page.shown := state; Page.in_flight := [] |} in
  let cleared :=
    Page.unfold_session B
      [Page.ClickGenerate; Page.ClickClear; Page.ReplyArrives 0 (inr reply)] idle in
  (Page.file (Page.shown cleared) = None /\
   Page.previewUrl (Page.shown cleared) = None /\
   Page.success (Page.shown cleared) = true /\
   Page.resultImage (Page.shown cleared) = Page.data_image data /\
   Page.in_flight cleared = []) /\
  forall g,
    page_accepts g ->
    let changed :=
      Page.unfold_session B
        [Page.ClickGenerate; Page.InputChanges (Some g);
         Page.ReplyArrives 0 (inr reply)] idle in
    Page.file (Page.shown changed) = Some g /\
    Page.success (Page.shown changed) = true /\
    Page.resultImage (Page.shown changed) = Page.data_image data /\
    Page.in_flight changed = [].
Proof.
  intros Hfile Hpreview Hidle Hok Hjson. cbv zeta.
  unfold Page.unfold_session. cbn [fold_left].
  assert (Hstart : Page.happen B Page.ClickGenerate
                     {| Page.shown := state; Page.in_flight := [] |} =
                   {| Page.shown := Page.begin_generate state;
                      Page.in_flight := [f] |}).
  { cbn. unfold Page.generate_disabled. rewrite Hfile, Hidle. reflexivity. }
  rewrite Hstart. split.
  - cbn. unfold Page.clear_rendered. cbn. rewrite Hpreview. cbn.
    unfold Page.finish_generate, Page.read_reply. rewrite Hjson, Hok. cbn.
    auto.
  - intros g Hg. apply page_accepts_test in Hg. destruct Hg as [Htype Hsize].
    cbn. unfold Page.handleFileSelect. rewrite Htype, Hsize. cbn.
    unfold Page.finish_generate, Page.read_reply. rewrite Hjson, Hok. cbn.
    auto.
Qed.
End PageProperties.

Section EndToEnd.
Context {L : ImageLibrary}.
Variable S : Server.
Variable urls : File -> string.
Variable clock : Z.

(** Every file the route accepts passes the check of the page: the four
    allowed types are image types, and the two size limits are equal. *)
Theorem route_accepted_files_pass_the_page f :
  In (file_type f) Route.ALLOWED_TYPES ->
  file_size f <= Route.MAX_FILE_SIZE ->
  page_accepts f.
Proof.
  intros Htype Hsize. split; [ | exact Hsize ].
  unfold Route.ALLOWED_TYPES in Htype. cbn in Htype.
  destruct Htype as [<- | [<- | [<- | [<- | [] ] ] ] ]; reflexivity.
Qed.

Lemma posted_reply f :
  Page.personalize (Page.browser_of S urls clock) f "template1" =
  match answer (Route.POST S (inr (posted_form f))) with
  | Returned response => inr (Page.reply_of response)
  | Threw failed => inl failed
  end.
Proof. reflexivity. Qed.

(** The page is more permissive than the route: a file of an image type
    that is not one of the four allowed types (a GIF, say) is accepted by the
    page, and generating then ends with the error of the route,
    [Invalid file type ...], whatever the server. *)
Theorem page_accepts_types_the_route_refuses f state :
  page_accepts f ->
  ~ In (file_type f) Route.ALLOWED_TYPES ->
  let B := Page.browser_of S urls clock in
  let selected := Page.act B (Page.Select (Some f)) state in
  let next := Page.act B Page.Generate selected in
  Page.file selected = Some f /\
  Page.error selected = None /\
  Page.success next = false /\
  Page.error next =
    Some "Invalid file type. Allowed types: image/jpeg, image/png, image/jpg, image/webp".
Proof.
  intros Haccepts Htype. cbv zeta.
  apply page_accepts_test in Haccepts. destruct Haccepts as [Hprefix Hsize].
  assert (Hselected :
            Page.act (Page.browser_of S urls clock) (Page.Select (Some f)) state =
            {| Page.file := Some f; Page.previewUrl := Some (urls f);
               Page.isProcessing := false; Page.error := None;
               Page.resultImage := None; Page.success := false |}).
  { cbn. unfold Page.handleFileSelect. rewrite Hprefix, Hsize. reflexivity. }
  rewrite Hselected. cbn [Page.file Page.error].
  split; [ reflexivity | ]. split; [ reflexivity | ].
  destruct (validation_cases S (posted_form f)) as [Hvalid | Hrefused].
  { destruct Hvalid as (f' & [= <-] & Hin & _). contradiction. }
  destruct Hrefused as (message & Hrun & Hwhy).
  assert (Hmessage : message =
            "Invalid file type. Allowed types: image/jpeg, image/png, image/jpg, image/webp").
  { destruct Hwhy as [ [Hno _] | [ (_ & _ & ->) | (f' & [= <-] & Hin & _) ] ].
    - discriminate.
    - reflexivity.
    - contradiction. }
  subst message.
  cbn [Page.act]. unfold Page.handleGenerate, Page.request_image.
  cbn [Page.file]. rewrite posted_reply, Hrun. cbn. auto.
Qed.

(** End to end: when the requests of the page are answered by the route,
    generating for a selected file shows success exactly when the route
    answers with status 200, and then the result on the page is the data URI
    of the compositor; otherwise the page shows the error message of the
    route. *)
Theorem page_success_is_route_200 f state :
  Page.file state = Some f ->
  let next := snd (Page.handleGenerate (Page.browser_of S urls clock) state) in
  exists response,
    answer (Route.POST S (inr (posted_form f))) = Returned response /\
    (Page.success next = true <-> Route.status response = 200) /\
    (Route.status response = 200 ->
     exists uri,
       Route.body response =
         Route.SuccessJson (Data uri) "Image personalized successfully" /\
       Page.resultImage next = Some (Data uri) /\ Page.error next = None) /\
    (Route.status response <> 200 ->
     exists message details,
       Route.body response = Route.ErrorJson message details /\
       Page.error next = Some (js_or (Some message) "Failed to personalize image") /\
       Page.resultImage next = Page.resultImage state).
Proof.
  intros Hfile. cbv zeta.
  destruct (POST_answers S (inr (posted_form f))) as (response & Hanswer & Hstatus).
  exists response. split; [ exact Hanswer | ].
  unfold Page.handleGenerate, Page.request_image. rewrite Hfile.
  rewrite posted_reply, Hanswer. cbn.
  destruct response as [status body]. cbn in Hstatus |- *.
  destruct Hstatus as [ [-> (uri & ->)] | [ [-> (message & form & -> & _)]
                                          | [-> (message & details & -> & _)] ] ];
    cbn.
  - split; [ tauto | ]. split; [ | intros Hno; contradiction ].
    intros _. exists uri. auto.
  - split; [ split; intros; discriminate | ].
    split; [ intros; discriminate | ]. intros _. eexists _, _. auto.
  - split; [ split; intros; discriminate | ].
    split; [ intros; discriminate | ]. intros _. eexists _, _. auto.
Qed.
End EndToEnd.

(** * The callers on concrete inputs *)

(** The second URL of the model's answer is ignored. *)
Lemma personalizeImage_reads_output_witness :
  answer (AiService.personalizeImage
            (studio_server (inr (Replicate.Items [served_url; "https://replicate.delivery/out-1"])))
            {| AiService.auth := "r8_token" |} (route_options photo)) =
  Returned {| AiService.imageUrl := served_url; AiService.error := None |}.
Proof.
  apply (personalizeImage_reads_output
           (studio_server (inr (Replicate.Items [served_url; "https://replicate.delivery/out-1"])))
           {| AiService.auth := "r8_token" |} (route_options photo)
           (Replicate.Items [served_url; "https://replicate.delivery/out-1"])).
  reflexivity.
Defined.

Lemma oversized_is_invalid : ~ valid_upload (upload oversized_photo None).
Proof.
  intros (f & Hfield & _ & Hsize). injection Hfield as <-.
  unfold Route.MAX_FILE_SIZE in Hsize. cbn in Hsize. lia.
Qed.

(** One byte over the limit is refused, even by a server without a token. *)
Lemma POST_rejects_invalid_upload_witness :
  exists message,
    Route.POST unconfigured_server (inr (upload oversized_photo None)) =
    ([ServerLog [Txt "Received personalization request"]; FormDataRead],
     Returned {| Route.status := 400;
                 Route.body := Route.ErrorJson message None |}).
Proof.
  destruct (POST_rejects_invalid_upload unconfigured_server
              (upload oversized_photo None) oversized_is_invalid)
    as (message & Hrun & _).
  exists message. exact Hrun.
Defined.

Lemma largest_is_valid : valid_upload (upload largest_photo None).
Proof.
  exists largest_photo. split; [ reflexivity | ]. split.
  - left. reflexivity.
  - unfold Route.MAX_FILE_SIZE. cbn. lia.
Qed.

(** A photo of exactly 10 MB passes validation and meets the missing
    token. *)
Lemma POST_missing_token_witness :
  exists message details,
    answer (Route.POST unconfigured_server (inr (upload largest_photo None))) =
    Returned {| Route.status := 500;
                Route.body := Route.ErrorJson message details |}.
Proof.
  destruct (POST_missing_token unconfigured_server (upload largest_photo None)
              largest_is_valid eq_refl) as (details & Hanswer & _).
  eexists _, details. exact Hanswer.
Defined.

Lemma photo_is_allowed : In (file_type photo) Route.ALLOWED_TYPES.
Proof. right. left. reflexivity. Qed.

Lemma photo_is_small : file_size photo <= Route.MAX_FILE_SIZE.
Proof. unfold Route.MAX_FILE_SIZE. cbn. lia. Qed.

Lemma studio_token model_answer : token_is (studio_server model_answer) "r8_token".
Proof. split; [ reflexivity | discriminate ]. Qed.

(** The model host is down: status 500 with its message, and no
    compositing. *)
Lemma POST_model_failure_skips_compositor_witness :
  answer (Route.POST (studio_server (inl (JsError "Service Unavailable")))
            (inr (upload photo None))) =
  Returned {| Route.status := 500;
              Route.body := Route.ErrorJson "Service Unavailable" None |} /\
  List.filter is_compositing
    (effects (Route.POST (studio_server (inl (JsError "Service Unavailable")))
                (inr (upload photo None)))) = [].
Proof.
  apply (POST_model_failure_skips_compositor
           (studio_server (inl (JsError "Service Unavailable")))
           (upload photo None) photo "r8_token"
           {| AiService.imageUrl := "";
              AiService.error := Some "Service Unavailable" |}).
  - reflexivity.
  - exact photo_is_allowed.
  - exact photo_is_small.
  - apply studio_token.
  - reflexivity.
  - reflexivity.
Defined.

(** The whole pipeline: a PNG upload, the model's URL, the composite on
    [template1]. *)
Lemma POST_composite_outcome_witness :
  exists bytes,
    answer (Route.POST (studio_server (inr (Replicate.Text served_url)))
              (inr (upload photo None))) =
    Returned
      {| Route.status := 200;
         Route.body :=
           Route.SuccessJson (Data {| mime := "image/png"; body := bytes |})
             "Image personalized successfully" |}.
Proof.
  destruct (composite_result_shape studio_world
              (POST_composite_options served_url None))
    as (result & Hout & [ [bytes ->] | [message ->] ]).
  - exists bytes.
    apply (proj1 (POST_composite_outcome
                    (studio_server (inr (Replicate.Text served_url)))
                    (upload photo None) photo "r8_token" served_url
                    eq_refl photo_is_allowed photo_is_small
                    (studio_token _) eq_refl ltac:(discriminate))).
    exact Hout.
  - exfalso. discriminate Hout.
Defined.

(** A template name nobody registered. *)
Lemma POST_unknown_template_is_500_witness :
  answer (Route.POST (studio_server (inr (Replicate.Text served_url)))
            (inr (upload photo (Some "space")))) =
  Returned {| Route.status := 500;
              Route.body := Route.ErrorJson "Template space not found" None |}.
Proof.
  apply (POST_unknown_template_is_500
           (studio_server (inr (Replicate.Text served_url)))
           (upload photo (Some "space")) photo "r8_token" served_url).
  - reflexivity.
  - exact photo_is_allowed.
  - exact photo_is_small.
  - apply studio_token.
  - reflexivity.
  - discriminate.
  - reflexivity.
  - apply (proj1 (bool_decide_eq_false _)). reflexivity.
Defined.

(** A PNG upload goes to the model as [image/jpeg]. *)
Lemma POST_labels_upload_as_jpeg_witness :
  exists input,
    List.filter is_model_call
      (effects (Route.POST (studio_server (inr (Replicate.Text served_url)))
                  (inr (upload photo None)))) =
      [ReplicateRun "r8_token" AiService.model input] /\
    Replicate.image input =
      {| mime := "image/jpeg"; body := ImageFile PNG (solid 800 600 black) |}.
Proof.
  destruct (POST_labels_upload_as_jpeg
              (studio_server (inr (Replicate.Text served_url)))
              (upload photo None) photo "r8_token"
              eq_refl photo_is_allowed photo_is_small (studio_token _))
    as (input & Hcalls & Himage & _).
  exists input. split; [ exact Hcalls | exact Himage ].
Defined.

Lemma notes_are_refused : ~ page_accepts notes.
Proof. intros [Htype _]. discriminate Htype. Qed.

(** After a photo, a text file is refused, and generating posts the
    photo. *)
Lemma refused_selection_keeps_previous_file_witness :
  List.filter is_post
    (fst (Page.handleGenerate tab
            (snd (Page.handleFileSelect tab (Some notes)
                    (Page.act tab (Page.Select (Some photo)) Page.initial))))) =
  [Page.PostPersonalize photo "template1"].
Proof.
  refine (proj2 (proj2 (proj2 (proj2 (proj2
            (refused_selection_keeps_previous_file tab notes
               (Page.act tab (Page.Select (Some photo)) Page.initial)
               notes_are_refused))))) photo _).
  reflexivity.
Defined.

(** Generating for a selected photo comes to rest. *)
Lemma handleGenerate_settles_witness :
  Page.isProcessing
    (snd (Page.handleGenerate tab (Page.act tab (Page.Select (Some photo)) Page.initial))) =
  false.
Proof.
  refine (proj1 (handleGenerate_settles tab photo
                   (Page.act tab (Page.Select (Some photo)) Page.initial) _)).
  reflexivity.
Defined.

(** The photo passes both checks. *)
Lemma route_accepted_files_pass_the_page_witness : page_accepts photo.
Proof.
  apply route_accepted_files_pass_the_page.
  - exact photo_is_allowed.
  - exact photo_is_small.
Defined.

Lemma animation_passes_the_page : page_accepts animation.
Proof. split; [ reflexivity | unfold Page.MAX_SIZE; cbn; lia ]. Qed.

Lemma animation_is_not_allowed : ~ In (file_type animation) Route.ALLOWED_TYPES.
Proof. cbn. intros [H | [H | [H | [H | [] ] ] ] ]; discriminate H. Qed.

(** A GIF: selected without complaint, refused by the route. *)
Lemma page_accepts_types_the_route_refuses_witness :
  Page.error
    (Page.act (Page.browser_of unconfigured_server object_url 0) Page.Generate
       (Page.act (Page.browser_of unconfigured_server object_url 0)
          (Page.Select (Some animation)) Page.initial)) =
  Some "Invalid file type. Allowed types: image/jpeg, image/png, image/jpg, image/webp".
Proof.
  apply (page_accepts_types_the_route_refuses unconfigured_server object_url 0
           animation Page.initial animation_passes_the_page
           animation_is_not_allowed).
Defined.

(** The photo, end to end. *)
Lemma page_success_is_route_200_witness :
  exists response,
    answer (Route.POST (studio_server (inr (Replicate.Items [served_url])))
              (inr (posted_form photo))) = Returned response /\
    (Page.success
       (snd (Page.handleGenerate tab (Page.act tab (Page.Select (Some photo)) Page.initial))) =
     true <-> Route.status response = 200).
Proof.
  destruct (page_success_is_route_200
              (studio_server (inr (Replicate.Items [served_url])))
              object_url 1700000000000 photo
              (Page.act tab (Page.Select (Some photo)) Page.initial) eq_refl)
    as (response & Hanswer & Hiff & _).
  exists response. split; [ exact Hanswer | exact Hiff ].
Defined.

(** A photo is selected, [Generate] and then [Clear] are clicked, and the
    reply arrives: the page shows success with no file selected. *)
Lemma reply_outlives_its_photo_witness :
  Page.file
    (Page.shown
       (Page.unfold_session tab
          [Page.ClickGenerate; Page.ClickClear; Page.ReplyArrives 0 (inr ready)]
          {| Page.shown := Page.act tab (Page.Select (Some photo)) Page.initial;
             Page.in_flight := [] |})) = None /\
  Page.success
    (Page.shown
       (Page.unfold_session tab
          [Page.ClickGenerate; Page.ClickClear; Page.ReplyArrives 0 (inr ready)]
          {| Page.shown := Page.act tab (Page.Select (Some photo)) Page.initial;
             Page.in_flight := [] |})) = true.
Proof.
  destruct (reply_outlives_its_photo tab photo
              (Page.act tab (Page.Select (Some photo)) Page.initial)
              "b" "lob:child.png" ready illustration
              eq_refl eq_refl eq_refl eq_refl eq_refl)
    as [ (Hfile & _ & Hsuccess & _) _ ].
  split; assumption.
Defined.

(** * The cover/center resize law *)

Arguments cover_scale : simpl never.
Arguments scaled_size : simpl never.
Arguments crop_before : simpl never.
Arguments crop_after : simpl never.
Arguments shown_source : simpl never.

Section CoverLaw.

Lemma inject_Z_nonzero (b : Z) : 0 < b -> (~ inject_Z b == 0)%Q.
Proof. intros H E. unfold Qeq in E. cbn in E. lia. Qed.

(** The scale is the horizontal ratio when that is the larger one, and the
    vertical ratio otherwise. *)
Lemma cover_scale_wide Sw Sh Tw Th :
  0 < Sw -> 0 < Sh -> Th * Sw <= Tw * Sh ->
  (cover_scale Sw Sh Tw Th == inject_Z Tw / inject_Z Sw)%Q.
Proof.
  intros HSw HSh Hwide. unfold cover_scale. apply Q.max_l.
  destruct Sw as [ | sw | ]; try lia. destruct Sh as [ | sh | ]; try lia.
  rewrite <- !Qmake_Qdiv. unfold Qle. cbn. lia.
Qed.

Lemma cover_scale_tall Sw Sh Tw Th :
  0 < Sw -> 0 < Sh -> Tw * Sh < Th * Sw ->
  (cover_scale Sw Sh Tw Th == inject_Z Th / inject_Z Sh)%Q.
Proof.
  intros HSw HSh Htall. unfold cover_scale. apply Q.max_r.
  destruct Sw as [ | sw | ]; try lia. destruct Sh as [ | sh | ]; try lia.
  rewrite <- !Qmake_Qdiv. unfold Qle. cbn. lia.
Qed.

(** Along one axis, for a scale that is the ratio [t / s0]. *)
Lemma scaled_size_ratio source scale t s0 :
  0 < s0 -> (scale == inject_Z t / inject_Z s0)%Q ->
  scaled_size source scale = source * t / s0.
Proof.
  intros Hs0 Hscale. unfold scaled_size. rewrite Hscale.
  rewrite Zdiv_Qdiv. apply Qfloor_comp.
  rewrite inject_Z_mult. field. apply inject_Z_nonzero. assumption.
Qed.

Lemma crop_before_ratio source target scale t s0 :
  0 < s0 -> (scale == inject_Z t / inject_Z s0)%Q ->
  crop_before source target scale = (source * t / s0 - target) / 2.
Proof.
  intros Hs0 Hscale. unfold crop_before. rewrite Hscale.
  transitivity ((source * t + - target * s0) / (s0 * 2)).
  - rewrite Zdiv_Qdiv. apply Qfloor_comp.
    rewrite !inject_Z_plus, !inject_Z_mult, inject_Z_opp. field.
    apply inject_Z_nonzero. assumption.
  - rewrite <- Z.div_div by lia. rewrite Z.div_add by lia. f_equal; lia.
Qed.

Lemma shown_source_ratio source target scale t s0 p :
  0 < s0 -> 0 < t -> (scale == inject_Z t / inject_Z s0)%Q ->
  shown_source source target scale p =
  (p + (source * t / s0 - target) / 2) * s0 / t.
Proof.
  intros Hs0 Ht Hscale. unfold shown_source.
  rewrite (crop_before_ratio source target scale t s0 Hs0 Hscale).
  set (n := p + (source * t / s0 - target) / 2).
  rewrite Hscale. rewrite Zdiv_Qdiv. apply Qfloor_comp.
  rewrite inject_Z_mult. field.
  split; apply inject_Z_nonzero; assumption.
Qed.

(** A target pixel always shows a pixel of the source: the crop never
    reaches outside the scaled image. *)
Lemma shown_source_inside source target t s0 p :
  0 < source -> 0 < t -> 0 < s0 -> target * s0 <= source * t ->
  0 <= p < target ->
  0 <= (p + (source * t / s0 - target) / 2) * s0 / t < source.
Proof.
  intros Hs Ht Hs0 Hcover Hp.
  assert (HF : target <= source * t / s0) by (apply Z.div_le_lower_bound; lia).
  pose proof (Z.mul_div_le (source * t) s0 Hs0) as Hle.
  set (F := source * t / s0) in *.
  assert (Hc : 0 <= (F - target) / 2 /\ 2 * ((F - target) / 2) <= F - target)
    by (Z.div_mod_to_equations; lia).
  set (c := (F - target) / 2) in *.
  split.
  - apply Z.div_pos; nia.
  - apply Z.div_lt_upper_bound; [ lia | ]. nia.
Qed.

(** The crop is centred: what is cut after the target is what is cut
    before it, or one pixel more when the overflow is odd. *)
Lemma crop_is_centred source target scale :
  crop_before source target scale <= crop_after source target scale
    <= crop_before source target scale + 1.
Proof.
  unfold crop_after, crop_before, scaled_size.
  set (whole := (inject_Z source * scale)%Q).
  assert (Hhalf : Qfloor ((whole - inject_Z target) / 2) =
                  (Qfloor whole - target) / 2).
  { destruct whole as [n d]. unfold Qfloor at 2.
    transitivity ((n + - target * Z.pos d) / (Z.pos d * 2)).
    - rewrite Zdiv_Qdiv. apply Qfloor_comp. rewrite (Qmake_Qdiv n d).
      rewrite !inject_Z_plus, !inject_Z_mult, inject_Z_opp. field.
      apply inject_Z_nonzero. lia.
    - rewrite <- Z.div_div by lia. rewrite Z.div_add by lia. f_equal; lia. }
  rewrite Hhalf. Z.div_mod_to_equations. lia.
Qed.

(** The axis whose ratio is the scale is not cropped at all. *)
Lemma scaled_size_exact source target :
  0 < source ->
  scaled_size source (inject_Z target / inject_Z source) = target.
Proof.
  intros Hs. rewrite (scaled_size_ratio source _ target source Hs (Qeq_refl _)).
  rewrite Z.mul_comm. apply Z.div_mul. lia.
Qed.

(** The resampling of the reference library follows the law. *)
Lemma reference_cover_follows_law (i : Image RGBA) w h px py :
  0 < img_width i -> 0 < img_height i -> 0 < w -> 0 < h ->
  pixel (reference_resample cover_center w h i) px py =
  pixel i
    (shown_source (img_width i) w
       (cover_scale (img_width i) (img_height i) w h) px)
    (shown_source (img_height i) h
       (cover_scale (img_width i) (img_height i) w h) py).
Proof.
  intros HSw HSh Hw Hh. cbn.
  destruct (h * img_width i <=? w * img_height i) eqn:Hbranch.
  - apply Z.leb_le in Hbranch.
    pose proof (cover_scale_wide _ _ w h HSw HSh Hbranch) as Hscale.
    rewrite (shown_source_ratio _ w _ w (img_width i) px HSw Hw Hscale).
    rewrite (shown_source_ratio _ h _ w (img_width i) py HSw Hw Hscale).
    replace (img_width i * w / img_width i) with w
      by (rewrite Z.mul_comm, Z.div_mul; lia).
    replace ((w - w) / 2) with 0 by (rewrite Z.sub_diag; reflexivity).
    rewrite Z.add_0_r. reflexivity.
  - apply Z.leb_gt in Hbranch.
    pose proof (cover_scale_tall _ _ w h HSw HSh Hbranch) as Hscale.
    rewrite (shown_source_ratio _ w _ h (img_height i) px HSh Hh Hscale).
    rewrite (shown_source_ratio _ h _ h (img_height i) py HSh Hh Hscale).
    replace (img_height i * h / img_height i) with h
      by (rewrite Z.mul_comm, Z.div_mul; lia).
    replace ((h - h) / 2) with 0 by (rewrite Z.sub_diag; reflexivity).
    rewrite Z.add_0_r. reflexivity.
Qed.

(** The law along both axes: every target pixel shows a source pixel, the
    scaled image covers the target, and one axis is not cropped. *)
Lemma cover_law_geometry Sw Sh w h :
  0 < Sw -> 0 < Sh -> 0 < w -> 0 < h ->
  (forall px py,
      0 <= px < w -> 0 <= py < h ->
      0 <= shown_source Sw w (cover_scale Sw Sh w h) px < Sw /\
      0 <= shown_source Sh h (cover_scale Sw Sh w h) py < Sh) /\
  (scaled_size Sw (cover_scale Sw Sh w h) = w \/
   scaled_size Sh (cover_scale Sw Sh w h) = h) /\
  w <= scaled_size Sw (cover_scale Sw Sh w h) /\
  h <= scaled_size Sh (cover_scale Sw Sh w h).
Proof.
  intros HSw HSh Hw Hh.
  destruct (Z_le_gt_dec (h * Sw) (w * Sh)) as [Hwide | Htall].
  - pose proof (cover_scale_wide Sw Sh w h HSw HSh Hwide) as Hscale.
    rewrite !(scaled_size_ratio _ _ w Sw HSw Hscale).
    replace (Sw * w / Sw) with w by (rewrite Z.mul_comm, Z.div_mul; lia).
    split; [ | split; [ left; reflexivity | split; [ lia | ] ] ].
    + intros px py Hpx Hpy.
      rewrite (shown_source_ratio _ w _ w Sw px HSw Hw Hscale).
      rewrite (shown_source_ratio _ h _ w Sw py HSw Hw Hscale).
      split; apply shown_source_inside; lia.
    + apply Z.div_le_lower_bound; lia.
  - pose proof (cover_scale_tall Sw Sh w h HSw HSh ltac:(lia)) as Hscale.
    rewrite !(scaled_size_ratio _ _ h Sh HSh Hscale).
    replace (Sh * h / Sh) with h by (rewrite Z.mul_comm, Z.div_mul; lia).
    split; [ | split; [ right; reflexivity | split; [ | lia ] ] ].
    + intros px py Hpx Hpy.
      rewrite (shown_source_ratio _ w _ h Sh px HSh Hh Hscale).
      rewrite (shown_source_ratio _ h _ h Sh py HSh Hh Hscale).
      split; apply shown_source_inside; lia.
    + apply Z.div_le_lower_bound; lia.
Qed.
End CoverLaw.

Section CoverLawOfTheCompositor.
Variable W : World.

End CoverLawOfTheCompositor.

